(** * UserProfile: the profile form, its submit handler, the image preview
      effect and the item lists of [src/components/UserProfile/index.tsx].

    The component is embedded shallowly: the [useState] cells and the form
    values are one record, the handlers are functions on it, the awaited
    service calls are answered by a record of outcomes and logged in a trace,
    and the [useEffect] that stages the picked image is a step of a small
    model of the render/commit cycle. *)

From Stdlib Require Import String Ascii List Bool Arith Lia DecimalString.
From stdpp Require Import base list strings.
Import ListNotations.
Local Open Scope string_scope.
Local Open Scope list_scope.
Local Open Scope nat_scope.

(* ===================================================================== *)
(** ** JavaScript strings and truthiness *)
(* ===================================================================== *)

(** Strings are sequences of code units; [string] covers the code units
    below 256, on which [toLowerCase] and [trim] are written out as
    ECMAScript defines them. [String.length] is the [.length] property. *)

Module JS.

(** [!!v] for a possibly absent string: [undefined] and the empty string
    are falsy, every other string is truthy. *)
Definition truthyStr (s : string) : bool :=
  match s with
  | EmptyString => false
  | String _ _ => true
  end.

Definition truthy (v : option string) : bool :=
  match v with
  | None => false
  | Some s => truthyStr s
  end.

(** [a || b] on possibly absent strings. *)
Definition or (a b : option string) : option string :=
  if truthy a then a else b.

(** [a || ""], the idiom of [item.itemType || ''] and
    [currentUser.userName || ""]. *)
Definition orEmpty (a : option string) : string :=
  match a with
  | Some s => s
  | None => ""
  end.

Definition lowerChar (c : ascii) : ascii :=
  let n := nat_of_ascii c in
  if (65 <=? n) && (n <=? 90) then ascii_of_nat (n + 32)
  else if (192 <=? n) && (n <=? 222) && negb (n =? 215) then ascii_of_nat (n + 32)
  else c.

Fixpoint toLowerCase (s : string) : string :=
  match s with
  | EmptyString => EmptyString
  | String c r => String (lowerChar c) (toLowerCase r)
  end.

(** White space and line terminators among the code units below 256:
    TAB, LF, VT, FF, CR, SP and NBSP. *)
Definition isSpace (c : ascii) : bool :=
  let n := nat_of_ascii c in
  ((9 <=? n) && (n <=? 13)) || (n =? 32) || (n =? 160).

Fixpoint trimStart (s : string) : string :=
  match s with
  | EmptyString => EmptyString
  | String c r => if isSpace c then trimStart r else s
  end.

(** [trimEnd] drops the trailing run of white space: a character is kept
    exactly when something non-blank follows it or it is non-blank. *)
Fixpoint trimEnd (s : string) : string :=
  match s with
  | EmptyString => EmptyString
  | String c r =>
      match trimEnd r with
      | EmptyString => if isSpace c then EmptyString else String c EmptyString
      | r' => String c r'
      end
  end.

Definition trim (s : string) : string := trimEnd (trimStart s).

End JS.

(* ===================================================================== *)
(** ** Data model *)
(* ===================================================================== *)

(** A DOM [File], as far as the component looks at it: its name and its
    MIME type. A [FileList] is the sequence of files of the file input. *)
Record File := mkFile { fileName : string; fileType : string }.

#[global] Instance File_eq_dec : EqDecision File.
Proof. solve_decision. Defined.

Definition FileList := list File.

(** Object URLs handed out by [URL.createObjectURL]: the n-th call returns
    the handle [n]; every handle is a non-empty string in the browser, so a
    present handle is truthy. *)
Definition ObjectURL := nat.

(** [interface UserData]. *)
Module UserData.
Record t := mk {
  _id : option string;
  email : string;
  userName : string;
  password : option string;
  imgURL : option string;
  accessToken : option string;
  refreshToken : option string
}.
End UserData.

(** [Partial<UserData>]: every key may be missing. *)
Module PartialUserData.
Record t := mk {
  _id : option string;
  email : option string;
  userName : option string;
  password : option string;
  imgURL : option string;
  accessToken : option string;
  refreshToken : option string
}.

Definition withPassword (p : t) (v : string) : t :=
  mk (_id p) (email p) (userName p) (Some v) (imgURL p)
     (accessToken p) (refreshToken p).

Definition withImgURL (p : t) (v : string) : t :=
  mk (_id p) (email p) (userName p) (password p) (Some v)
     (accessToken p) (refreshToken p).


End PartialUserData.

(** [type ProfileFormData = z.infer<typeof profileFormSchema>]. *)
Module ProfileFormData.
Record t := mk {
  email : string;
  userName : string;
  password : string;
  profileImage : option FileList
}.
End ProfileFormData.

(* ===================================================================== *)
(** ** profileFormSchema *)
(* ===================================================================== *)

(** [formState.errors]: one optional message per field. *)
Record FieldErrors := mkErrors {
  emailError : option string;
  userNameError : option string;
  passwordError : option string;
  profileImageError : option string
}.

Definition noErrors : FieldErrors := mkErrors None None None None.

Definition hasErrors (e : FieldErrors) : bool :=
  match emailError e, userNameError e, passwordError e, profileImageError e with
  | None, None, None, None => false
  | _, _, _, _ => true
  end.

Section Schema.

(** The e-mail syntax check of the validation library behind
    [z.string().email(..)]. *)
Variable isEmail : string -> bool.

(** [z.string().email("Please enter a valid email")]. *)
Definition checkEmail (v : string) : option string :=
  if isEmail v then None else Some "Please enter a valid email".

(** [z.string().min(3, ..)]. *)
Definition checkUserName (v : string) : option string :=
  if 3 <=? String.length v then None
  else Some "Username must be at least 3 characters".

(** [z.string().min(8, ..)]. *)
Definition checkPassword (v : string) : option string :=
  if 8 <=? String.length v then None
  else Some "Password must be at least 8 characters".

(** [z.optional(z.instanceof(FileList))]: an absent value passes, and so
    does every [FileList]; the files themselves are not inspected. *)
Definition checkProfileImage (v : option FileList) : option string :=
  match v with
  | None => None
  | Some _ => None
  end.

Definition profileFormSchema (d : ProfileFormData.t) : FieldErrors :=
  mkErrors (checkEmail (ProfileFormData.email d))
           (checkUserName (ProfileFormData.userName d))
           (checkPassword (ProfileFormData.password d))
           (checkProfileImage (ProfileFormData.profileImage d)).

End Schema.

(** The [accept] attribute of the file input (line 304): the types the file
    picker offers. It is not consulted by [profileFormSchema]. *)
Definition profileImageInput_accept : list string := ["image/jpeg"; "image/png"].

Definition accepted (f : File) : bool :=
  existsb (String.eqb (fileType f)) profileImageInput_accept.

(* ===================================================================== *)
(** ** Component state *)
(* ===================================================================== *)

(** The [useState] cells of [UserProfile] and the values held by
    [useForm]. *)
Record State := mkState {
  isEditing : bool;
  isUploading : bool;
  localUser : option UserData.t;
  selectedImage : option File;
  tempImageURL : option ObjectURL;
  form : ProfileFormData.t;
  errors : FieldErrors
}.

Definition setIsEditing (v : bool) (s : State) : State :=
  mkState v (isUploading s) (localUser s) (selectedImage s) (tempImageURL s)
          (form s) (errors s).

Definition setIsUploading (v : bool) (s : State) : State :=
  mkState (isEditing s) v (localUser s) (selectedImage s) (tempImageURL s)
          (form s) (errors s).

Definition setLocalUser (v : option UserData.t) (s : State) : State :=
  mkState (isEditing s) (isUploading s) v (selectedImage s) (tempImageURL s)
          (form s) (errors s).

Definition setSelectedImage (v : option File) (s : State) : State :=
  mkState (isEditing s) (isUploading s) (localUser s) v (tempImageURL s)
          (form s) (errors s).

Definition setTempImageUrl (v : option ObjectURL) (s : State) : State :=
  mkState (isEditing s) (isUploading s) (localUser s) (selectedImage s) v
          (form s) (errors s).

Definition setForm (v : ProfileFormData.t) (s : State) : State :=
  mkState (isEditing s) (isUploading s) (localUser s) (selectedImage s)
          (tempImageURL s) v (errors s).

Definition setErrors (v : FieldErrors) (s : State) : State :=
  mkState (isEditing s) (isUploading s) (localUser s) (selectedImage s)
          (tempImageURL s) (form s) v.

(** [setValue(name, value)] of the form, one function per field. *)
Definition setValue_email (v : string) (s : State) : State :=
  let f := form s in
  setForm (ProfileFormData.mk v (ProfileFormData.userName f)
             (ProfileFormData.password f) (ProfileFormData.profileImage f)) s.

Definition setValue_userName (v : string) (s : State) : State :=
  let f := form s in
  setForm (ProfileFormData.mk (ProfileFormData.email f) v
             (ProfileFormData.password f) (ProfileFormData.profileImage f)) s.

Definition setValue_password (v : string) (s : State) : State :=
  let f := form s in
  setForm (ProfileFormData.mk (ProfileFormData.email f)
             (ProfileFormData.userName f) v (ProfileFormData.profileImage f)) s.

(** The file input's change event, as [register("profileImage")] records
    it. *)
Definition setValue_profileImage (v : option FileList) (s : State) : State :=
  let f := form s in
  setForm (ProfileFormData.mk (ProfileFormData.email f)
             (ProfileFormData.userName f) (ProfileFormData.password f) v) s.

(** [defaultValues] of [useForm] and the initial [useState] values. *)
Definition defaultValues : ProfileFormData.t :=
  ProfileFormData.mk "" "" "" None.

Definition initialState : State :=
  mkState false false None None None defaultValues noErrors.

(** The effect on [currentUser] (lines 75-82): copy the user and seed the
    form, the password field with the empty string. *)
Definition syncCurrentUser (currentUser : option UserData.t) (s : State) : State :=
  match currentUser with
  | Some cu =>
      setValue_password ""
        (setValue_userName (JS.orEmpty (Some (UserData.userName cu)))
           (setValue_email (UserData.email cu)
              (setLocalUser (Some cu) s)))
  | None => s
  end.

(* ===================================================================== *)
(** ** Awaited calls: outcomes, trace and the monad of the handlers *)
(* ===================================================================== *)

(** A settled promise. *)
Inductive Outcome (A : Type) : Type :=
| Resolved (a : A)
| Rejected.
Arguments Resolved {A} a.
Arguments Rejected {A}.

(** What the collaborators answer during one run of a handler. *)
Record Services := mkServices {
  uploadImage : File -> Outcome string;
  updateUser : string -> PartialUserData.t -> Outcome UserData.t;
  updateAuthState : Outcome unit
}.

(** What a handler does to the outside, in order. *)
Inductive Effect : Type :=
| CallUploadImage (f : File)
| CallUpdateUser (id : string) (p : PartialUserData.t)
| CallUpdateAuthState
| ConsoleLog (msg : string) (u : UserData.t)
| ConsoleError (msg : string).

Record Sys := mkSys { st : State; trace : list Effect }.

Definition Async (A : Type) : Type := Sys -> Outcome A * Sys.

Definition ret {A} (a : A) : Async A := fun σ => (Resolved a, σ).

Definition bind {A B} (c : Async A) (k : A -> Async B) : Async B :=
  fun σ =>
    match c σ with
    | (Resolved a, σ') => k a σ'
    | (Rejected, σ') => (Rejected, σ')
    end.

Declare Scope async_scope.
Delimit Scope async_scope with async.
Notation "x <- c ;; k" := (bind c (fun x => k))
  (at level 100, c at next level, right associativity) : async_scope.
Notation "c ;; k" := (bind c (fun _ => k))
  (at level 100, right associativity) : async_scope.

(** A state setter used as a step of a handler. *)
Definition update (f : State -> State) : Async unit :=
  fun σ => (Resolved tt, mkSys (f (st σ)) (trace σ)).

Definition emit (e : Effect) : Async unit :=
  fun σ => (Resolved tt, mkSys (st σ) (trace σ ++ [e])).

(** [await] of a call whose outcome the services give. *)
Definition await {A} (e : Effect) (o : Outcome A) : Async A :=
  fun σ => (o, mkSys (st σ) (trace σ ++ [e])).

(** [try { body } catch { handler } finally { final }]. *)
Definition tryCatchFinally (body handler final : Async unit) : Async unit :=
  fun σ =>
    match body σ with
    | (Resolved _, σ') => final σ'
    | (Rejected, σ') => bind handler (fun _ => final) σ'
    end.

(* ===================================================================== *)
(** ** onSubmit, handleSubmit and handleCancelEdit *)
(* ===================================================================== *)

(** [{ email: data.email, userName: data.userName }] (lines 108-111). *)
Definition initialUpdate (data : ProfileFormData.t) : PartialUserData.t :=
  PartialUserData.mk None (Some (ProfileFormData.email data))
    (Some (ProfileFormData.userName data)) None None None None.

(** Lines 113-115: [if (data.password && data.password.length >= 8)]. *)
Definition addPassword (data : ProfileFormData.t) (p : PartialUserData.t)
  : PartialUserData.t :=
  let pw := ProfileFormData.password data in
  if JS.truthyStr pw && (8 <=? String.length pw)
  then PartialUserData.withPassword p pw
  else p.

(** An optional key of [{...a, ...b}]: the value of [b] when [b] has the
    key, that of [a] otherwise. *)
Definition spreadKey {A} (a b : option A) : option A :=
  match b with
  | Some v => Some v
  | None => a
  end.

(** [{ ...localUser, ...updatedUserData }]. *)
Definition spread (u : UserData.t) (p : PartialUserData.t) : UserData.t :=
  UserData.mk
    (spreadKey (UserData._id u) (PartialUserData._id p))
    (default (UserData.email u) (PartialUserData.email p))
    (default (UserData.userName u) (PartialUserData.userName p))
    (spreadKey (UserData.password u) (PartialUserData.password p))
    (spreadKey (UserData.imgURL u) (PartialUserData.imgURL p))
    (spreadKey (UserData.accessToken u) (PartialUserData.accessToken p))
    (spreadKey (UserData.refreshToken u) (PartialUserData.refreshToken p)).

Definition withImgURL (u : UserData.t) (v : option string) : UserData.t :=
  UserData.mk (UserData._id u) (UserData.email u) (UserData.userName u)
    (UserData.password u) v (UserData.accessToken u) (UserData.refreshToken u).

(** The argument of [setLocalUser] at lines 126-130. *)
Definition mergedUser (localUser : UserData.t) (updatedUserData : PartialUserData.t)
  : UserData.t :=
  withImgURL (spread localUser updatedUserData)
    (JS.or (PartialUserData.imgURL updatedUserData) (UserData.imgURL localUser)).

Section Handlers.

Variable svc : Services.

Local Open Scope async_scope.

(** The [try] block of [onSubmit] (lines 108-135). [localUser], its id and
    [selectedImage] are the values the handler closed over. *)
Definition onSubmit_try (localUser : UserData.t) (id : string)
    (selectedImage : option File) (data : ProfileFormData.t) : Async unit :=
  let updatedUserData := addPassword data (initialUpdate data) in
  updatedUserData <-
    match selectedImage with
    | Some file =>
        url <- await (CallUploadImage file) (uploadImage svc file) ;;
        ret (PartialUserData.withImgURL updatedUserData url)
    | None => ret updatedUserData
    end ;;
  updatedUser <- await (CallUpdateUser id updatedUserData)
                   (updateUser svc id updatedUserData) ;;
  emit (ConsoleLog "User updated:" updatedUser) ;;
  update (setLocalUser (Some (mergedUser localUser updatedUserData))) ;;
  update (setSelectedImage None) ;;
  update (setTempImageUrl None) ;;
  update (setIsEditing false) ;;
  await CallUpdateAuthState (updateAuthState svc).

(** [onSubmit] (lines 102-141). *)
Definition onSubmit (data : ProfileFormData.t) : Async unit :=
  fun σ =>
    match localUser (st σ) with
    | None => ret tt σ
    | Some lu =>
        match UserData._id lu with
        | None => ret tt σ
        | Some id =>
            if negb (JS.truthyStr id) then ret tt σ
            else
              (update (setIsUploading true) ;;
               tryCatchFinally
                 (onSubmit_try lu id (selectedImage (st σ)) data)
                 (emit (ConsoleError "Failed to update user details:"))
                 (update (setIsUploading false))) σ
        end
    end.

(** [handleSubmit(onSubmit)] of the form library with the schema as
    resolver: the handler runs only on values the schema accepts;
    otherwise the messages go to [formState.errors]. *)
Definition handleSubmit (isEmail : string -> bool) : Async unit :=
  fun σ =>
    let errs := profileFormSchema isEmail (form (st σ)) in
    if hasErrors errs then update (setErrors errs) σ
    else (update (setErrors noErrors) ;; onSubmit (form (st σ))) σ.

End Handlers.

(** [handleCancelEdit] (lines 143-152). *)
Definition handleCancelEdit (s : State) : State :=
  let s1 :=
    match localUser s with
    | Some lu =>
        setValue_password ""
          (setValue_userName (JS.orEmpty (Some (UserData.userName lu)))
             (setValue_email (UserData.email lu) s))
    | None => s
    end in
  setIsEditing false (setTempImageUrl None (setSelectedImage None s1)).

(** Run a handler from a state with an empty trace. *)
Definition run {A} (c : Async A) (s : State) : Outcome A * Sys := c (mkSys s []).

Definition stateAfter {A} (c : Async A) (s : State) : State := st (snd (run c s)).

Definition traceOf {A} (c : Async A) (s : State) : list Effect := trace (snd (run c s)).

(** The payloads of the update-user calls of a trace. *)
Definition sentUpdates (t : list Effect) : list PartialUserData.t :=
  flat_map (fun e => match e with CallUpdateUser _ p => [p] | _ => [] end) t.

Definition networkCalls (t : list Effect) : list Effect :=
  List.filter (fun e => match e with
                        | CallUploadImage _ | CallUpdateUser _ _ | CallUpdateAuthState => true
                        | _ => false
                        end) t.

(* ===================================================================== *)
(** ** formatDate *)
(* ===================================================================== *)

Section Dates.

(** Time values, the parser behind [new Date(string)] ([None] when the
    string is no date: the result is then an invalid [Date], no exception is
    raised), and [toLocaleDateString] on a valid date. *)
Variable TimeValue : Type.
Variable parseDate : string -> option TimeValue.
Variable toLocaleDateString : TimeValue -> string.

(** [date: Date | string | undefined]; a [Date] object may be invalid. *)
Inductive DateInput : Type :=
| DateObject (t : option TimeValue)
| DateString (s : string).

(** [dateObj.toLocaleDateString()]: the text "Invalid Date" for an invalid
    date. *)
Definition localeDate (t : option TimeValue) : string :=
  match t with
  | Some v => toLocaleDateString v
  | None => "Invalid Date"
  end.

(** [formatDate] (lines 189-198). Nothing in the [try] block raises, so the
    [catch] branch is never taken. *)
Definition formatDate (date : option DateInput) : string :=
  match date with
  | None => "N/A"
  | Some (DateObject t) => localeDate t
  | Some (DateString s) =>
      if negb (JS.truthyStr s) then "N/A" else localeDate (parseDate s)
  end.

End Dates.

Arguments DateObject {TimeValue} t.
Arguments DateString {TimeValue} s.

(* ===================================================================== *)
(** ** Items: ownership filter and cards *)
(* ===================================================================== *)

(** [typeParam: 'lost' | 'found']. *)
Inductive ItemKind : Type := lost | found.

Definition typeParamString (t : ItemKind) : string :=
  match t with
  | lost => "lost"
  | found => "found"
  end.

(** [String(v)] on a possibly absent string. *)
Definition toString (v : option string) : string :=
  match v with
  | Some s => s
  | None => "undefined"
  end.

(** An id as the item service may send it: a string or a number. Numeric
    ids are natural numbers, which [String] prints in decimal digits. *)
Inductive JsId : Type :=
| IdString (s : string)
| IdNumber (n : nat).

#[global] Instance JsId_eq_dec : EqDecision JsId.
Proof. solve_decision. Defined.

(** [!!v] for an id: the empty string and the number 0 are falsy. *)
Definition idTruthy (v : JsId) : bool :=
  match v with
  | IdString s => JS.truthyStr s
  | IdNumber n => negb (n =? 0)
  end.

Definition truthyId (v : option JsId) : bool :=
  match v with
  | None => false
  | Some i => idTruthy i
  end.

(** [a || b] on possibly absent ids. *)
Definition orId (a b : option JsId) : option JsId :=
  if truthyId a then a else b.

(** [String(v)] on an id. *)
Definition idToString (v : JsId) : string :=
  match v with
  | IdString s => s
  | IdNumber n => NilEmpty.string_of_uint (Nat.to_uint n)
  end.

(** [String(v)] on a possibly absent id. *)
Definition toStringId (v : option JsId) : string :=
  match v with
  | Some i => idToString i
  | None => "undefined"
  end.

Section Items.

(** JavaScript numbers and [Number.prototype.toFixed]; the time values of
    dates. *)
Variable number : Type.
Variable toFixed : number -> nat -> string.
Variable TimeValue : Type.

(** A location as received: a string, or an object whose [lat] and [lng]
    may each be missing. *)
Inductive Location : Type :=
| LocText (s : string)
| LocObject (lat lng : option number).

(** Modelled from the spec: the [Item] interface of the item service is
    not part of the sources; the fields are those of the data model (id,
    owner, itemType, name, description, category, location, date, optional
    imgURL), with the legacy [userId] the filter reads. Owner and user id
    are compared through [String], so they may be strings or numbers. Every
    field the component guards with [||] or [!] is optional. *)
Record Item := mkItem {
  _id : option string;
  owner : option JsId;
  userId : option JsId;
  itemType : option string;
  name : string;
  description : string;
  category : string;
  location : option Location;
  date : option (DateInput TimeValue);
  imgURL : option string
}.

(** The callback of [items.filter] (lines 225-237). *)
Definition isUserItem (currentUser : option UserData.t) (typeParam : ItemKind)
    (item : Item) : bool :=
  let itemOwner := orId (owner item) (userId item) in
  let currentUserId :=
    match currentUser with
    | Some cu => UserData._id cu
    | None => None
    end in
  if negb (truthyId itemOwner) || negb (JS.truthy currentUserId) then false
  else
    let isCurrentUserItem :=
      String.eqb (toStringId itemOwner) (toString currentUserId) in
    if negb isCurrentUserItem then false
    else
      let itemType := JS.trim (JS.toLowerCase (JS.orEmpty (itemType item))) in
      String.eqb itemType (typeParamString typeParam).

(** [const filtered = items.filter(..)]. *)
Definition filtered (currentUser : option UserData.t) (typeParam : ItemKind)
    (items : list Item) : list Item :=
  List.filter (isUserItem currentUser typeParam) items.

(** [formatLocation] (lines 200-212). *)
Definition formatLocation (location : option Location) : string :=
  match location with
  | None => "Unknown location"
  | Some (LocText s) => if JS.truthyStr s then s else "Unknown location"
  | Some (LocObject (Some lat) (Some lng)) =>
      "Lat: " ++ toFixed lat 4 ++ ", Lng: " ++ toFixed lng 4
  | Some (LocObject _ _) => "[object Object]"
  end.

(** What a JSX child [{v}] shows: a string is shown as it is, an absent
    value shows nothing, and a plain object is not a valid child. *)
Inductive Shown : Type :=
| Text (s : string)
| NotRenderable.

Definition jsxChild (v : option Location) : Shown :=
  match v with
  | None => Text ""
  | Some (LocText s) => Text s
  | Some (LocObject _ _) => NotRenderable
  end.

(** The text children of one card (lines 253-259). *)
Record Card := mkCard {
  cardTitle : string;
  cardDescription : string;
  cardCategory : string;
  cardLocation : Shown
}.

(** [<strong>Location:</strong> {item.location}] (line 257). *)
Definition renderCard (item : Item) : Card :=
  mkCard (name item) (description item) (category item)
         (jsxChild (location item)).

Inductive ItemsView : Type :=
| LoadingPosts
| ErrorLoadingPosts (itemsError : string)
| NoItemsFound (typeParam : ItemKind)
| Cards (cards : list Card).

(** [renderUserItems] (lines 219-265). *)
Definition renderUserItems (itemsLoading : bool) (itemsError : option string)
    (currentUser : option UserData.t) (items : list Item)
    (typeParam : ItemKind) : ItemsView :=
  if itemsLoading then LoadingPosts
  else if JS.truthy itemsError then ErrorLoadingPosts (JS.orEmpty itemsError)
  else
    let filtered := filtered currentUser typeParam items in
    match filtered with
    | [] => NoItemsFound typeParam
    | _ => Cards (map renderCard filtered)
    end.

(** The classification as the specification words it:
    [normalize(I.owner ?? I.userId) == normalize(U)] and
    [trim(lower(I.itemType)) == T], with [??] falling back only when the
    owner is absent. *)
Definition nullish (a b : option JsId) : option JsId :=
  match a with
  | Some _ => a
  | None => b
  end.

Definition classify_spec (U : string) (T : ItemKind) (item : Item) : bool :=
  match nullish (owner item) (userId item) with
  | Some o =>
      String.eqb (idToString o) U
      && String.eqb (JS.trim (JS.toLowerCase (JS.orEmpty (itemType item))))
                    (typeParamString T)
  | None => false
  end.

End Items.

Arguments LocText {number} s.
Arguments LocObject {number} lat lng.
Arguments mkItem {number TimeValue}.
Arguments _id {number TimeValue}.
Arguments owner {number TimeValue}.
Arguments userId {number TimeValue}.
Arguments itemType {number TimeValue}.
Arguments name {number TimeValue}.
Arguments description {number TimeValue}.
Arguments category {number TimeValue}.
Arguments location {number TimeValue}.
Arguments date {number TimeValue}.
Arguments imgURL {number TimeValue}.
Arguments isUserItem {number TimeValue}.
Arguments filtered {number TimeValue}.
Arguments classify_spec {number TimeValue}.
Arguments jsxChild {number}.
Arguments renderCard {number TimeValue}.
Arguments renderUserItems {number TimeValue}.

(* ===================================================================== *)
(** ** An e-mail syntax check for the examples *)
(* ===================================================================== *)

(** The schema is parametric in the library's e-mail check. For concrete
    runs, [emailSyntax] follows the pattern of the library's 3.x releases:
    a local part over letters, digits and [_'+-.] that neither starts with a
    dot, nor holds two dots in a row, nor ends in a dot or a quote; then
    [@]; then dot-separated labels, the last one of two letters or more. *)
Module Email.

Definition code (c : ascii) : nat := nat_of_ascii c.

Definition isAlpha (c : ascii) : bool :=
  let n := code c in
  ((65 <=? n) && (n <=? 90)) || ((97 <=? n) && (n <=? 122)).

Definition isDigit (c : ascii) : bool :=
  let n := code c in (48 <=? n) && (n <=? 57).

Definition isAlnum (c : ascii) : bool := isAlpha c || isDigit c.

Definition isOneOf (cs : string) (c : ascii) : bool :=
  existsb (Ascii.eqb c) (list_ascii_of_string cs).

Definition localChar (c : ascii) : bool := isAlnum c || isOneOf "_'+-." c.
Definition localLast (c : ascii) : bool := isAlnum c || isOneOf "_+-" c.
Definition labelChar (c : ascii) : bool := isAlnum c || isOneOf "-" c.

(** Split at every occurrence of [sep]. *)
Fixpoint splitOn (sep : ascii) (l : list ascii) : list (list ascii) :=
  match l with
  | [] => [[]]
  | c :: r =>
      match splitOn sep r with
      | [] => [[c]]
      | w :: ws => if Ascii.eqb c sep then [] :: w :: ws else (c :: w) :: ws
      end
  end.

Fixpoint hasDoubleDot (l : list ascii) : bool :=
  match l with
  | a :: ((b :: _) as r) =>
      (Ascii.eqb a "."%char && Ascii.eqb b "."%char) || hasDoubleDot r
  | _ => false
  end.

Definition localOk (l : list ascii) : bool :=
  match l, rev l with
  | first :: _, final :: _ =>
      forallb localChar l && negb (Ascii.eqb first "."%char)
      && localLast final && negb (hasDoubleDot l)
  | _, _ => false
  end.

Definition labelOk (l : list ascii) : bool :=
  match l with
  | first :: r => isAlnum first && forallb labelChar r
  | [] => false
  end.

Definition tldOk (l : list ascii) : bool :=
  (2 <=? length l) && forallb isAlpha l.

Definition domainOk (l : list ascii) : bool :=
  match rev (splitOn "."%char l) with
  | tld :: ((_ :: _) as labels) => tldOk tld && forallb labelOk labels
  | _ => false
  end.

Definition emailSyntax (s : string) : bool :=
  match splitOn "@"%char (list_ascii_of_string s) with
  | [l; d] => localOk l && domainOk d
  | _ => false
  end.

(** The browser's check of an [input type="email"], for the examples: the
    empty text passes (the field is not required); otherwise a non-empty
    local part over letters, digits and [.!#$%&'*+/=?^_`{|}~-], then [@],
    then dot-separated labels of letters, digits and inner hyphens. *)
Definition htmlLocalChar (c : ascii) : bool :=
  isAlnum c || isOneOf ".!#$%&'*+/=?^_`{|}~-" c.

Definition htmlLabelOk (l : list ascii) : bool :=
  match l, rev l with
  | first :: _, final :: _ =>
      isAlnum first && isAlnum final && forallb labelChar l && (length l <=? 63)
  | _, _ => false
  end.

Definition htmlEmail (s : string) : bool :=
  match s with
  | EmptyString => true
  | _ =>
      match splitOn "@"%char (list_ascii_of_string s) with
      | [l; d] =>
          negb (length l =? 0) && forallb htmlLocalChar l
          && forallb htmlLabelOk (splitOn "."%char d)
      | _ => false
      end
  end.

End Email.

(* ===================================================================== *)
(** ** The image effect and the commit cycle *)
(* ===================================================================== *)

(** The component together with what the effect of lines 84-94 leaves
    behind between commits: the dependency values of its last run, the
    cleanup it returned (with the [tempImageURL] its closure captured), and
    the calls made to [URL.createObjectURL] and [URL.revokeObjectURL]. *)
Record Runtime := mkRuntime {
  component : State;
  effectDeps : option (option FileList * option ObjectURL);
  effectCleanup : option (option ObjectURL);
  created : nat;
  revoked : list ObjectURL
}.

Definition withComponent (s : State) (rt : Runtime) : Runtime :=
  mkRuntime s (effectDeps rt) (effectCleanup rt) (created rt) (revoked rt).

Definition initialRuntime : Runtime := mkRuntime initialState None None 0 [].

(** The cleanup of the previous run:
    [if (tempImageURL) URL.revokeObjectURL(tempImageURL)], on the value the
    closure captured. *)
Definition runCleanup (rt : Runtime) : Runtime :=
  match effectCleanup rt with
  | Some (Some url) =>
      mkRuntime (component rt) (effectDeps rt) None (created rt) (url :: revoked rt)
  | _ => mkRuntime (component rt) (effectDeps rt) None (created rt) (revoked rt)
  end.

(** The body of the effect, on the values of the render being committed.
    With no file in the field it does nothing and returns no cleanup. *)
Definition imageEffect (rt : Runtime) : Runtime :=
  let s := component rt in
  let watchProfileImage := ProfileFormData.profileImage (form s) in
  let tempImageURL := tempImageURL s in
  match watchProfileImage with
  | Some (file :: _) =>
      let url := created rt in
      mkRuntime (setTempImageUrl (Some url) (setSelectedImage (Some file) s))
                (effectDeps rt) (Some tempImageURL) (S (created rt)) (revoked rt)
  | _ => mkRuntime s (effectDeps rt) None (created rt) (revoked rt)
  end.

(** A commit of a render that saw the latest state: when a dependency
    changed since the last run, the previous cleanup runs and then the
    effect. (A render that lags behind is [staleCommit] below.) *)
Definition commit (rt : Runtime) : Runtime :=
  let s := component rt in
  let deps := (ProfileFormData.profileImage (form s), tempImageURL s) in
  if decide (effectDeps rt = Some deps) then rt
  else
    let rt1 := runCleanup rt in
    imageEffect (mkRuntime (component rt1) (Some deps) (effectCleanup rt1)
                           (created rt1) (revoked rt1)).

(** A commit of a render that did not see the newest [tempImageURL]: the
    setter of the last effect run is still pending, the render shows [seen],
    a value the cell held before, and the effect is due because the form
    library handed out a new [FileList] object. The previous cleanup runs,
    then the body with [seen] as the value its closure captures. [seen] is
    absent or one of the handles created so far. *)
Definition staleCommit (seen : option ObjectURL) (rt : Runtime) : Runtime :=
  let known :=
    match seen with
    | Some url => url <? created rt
    | None => true
    end in
  if negb known then rt
  else
    let rt1 := runCleanup rt in
    let s := component rt1 in
    let watchProfileImage := ProfileFormData.profileImage (form s) in
    match watchProfileImage with
    | Some (file :: _) =>
        let url := created rt1 in
        mkRuntime (setTempImageUrl (Some url) (setSelectedImage (Some file) s))
                  (Some (watchProfileImage, seen)) (Some seen)
                  (S (created rt1)) (revoked rt1)
    | _ => mkRuntime s (Some (watchProfileImage, seen)) None
                     (created rt1) (revoked rt1)
    end.

Section Events.

Variable isEmail : string -> bool.

(** What can happen to the mounted component. *)
Inductive Event : Type :=
| CurrentUserChanged (currentUser : option UserData.t)
| EnterEdit
| EditEmail (v : string)
| EditUserName (v : string)
| EditPassword (v : string)
| SelectImage (files : FileList)
| CancelEdit
| Submit (svc : Services)
| Commit
| StaleCommit (seen : option ObjectURL)
| Unmount.

Definition step (rt : Runtime) (e : Event) : Runtime :=
  let s := component rt in
  match e with
  | CurrentUserChanged cu => withComponent (syncCurrentUser cu s) rt
  | EnterEdit => withComponent (setIsEditing true s) rt
  | EditEmail v => withComponent (setValue_email v s) rt
  | EditUserName v => withComponent (setValue_userName v s) rt
  | EditPassword v => withComponent (setValue_password v s) rt
  | SelectImage files => withComponent (setValue_profileImage (Some files) s) rt
  | CancelEdit => withComponent (handleCancelEdit s) rt
  | Submit svc => withComponent (stateAfter (handleSubmit svc isEmail) s) rt
  | Commit => commit rt
  | StaleCommit seen => staleCommit seen rt
  | Unmount => runCleanup rt
  end.

Definition runEvents (rt : Runtime) (es : list Event) : Runtime :=
  fold_left step es rt.

(** The events of an edit session that the cancel claim ranges over:
    typing into the fields, picking files, and the commits in between. *)
Definition isEditAction (e : Event) : bool :=
  match e with
  | EditEmail _ | EditUserName _ | EditPassword _ | SelectImage _ | Commit
  | StaleCommit _ => true
  | _ => false
  end.

End Events.

(** The revoke call a pending cleanup still owes: one when its closure
    captured a handle, none otherwise. *)
Definition pendingRevokes (rt : Runtime) : nat :=
  match effectCleanup rt with
  | Some (Some _) => 1
  | _ => 0
  end.

(** What holds of the preview handles in every runtime the events can
    reach: a revoked handle is older than the newest handle, the revoke
    calls made and the one still owed stay below the number of handles
    created, the handle on display is the newest one, and the handle a
    pending cleanup captured is an older one. *)
Definition handlesOrdered (rt : Runtime) : Prop :=
  (forall u, In u (revoked rt) -> S u < created rt)
  /\ length (revoked rt) + pendingRevokes rt <= pred (created rt)
  /\ (forall t, tempImageURL (component rt) = Some t -> S t = created rt)
  /\ (forall c, effectCleanup rt = Some (Some c) -> S c < created rt).

(* ===================================================================== *)
(** ** Sample data for the concrete runs *)
(* ===================================================================== *)

Module Sample.

Definition alice : UserData.t :=
  UserData.mk (Some "u1") "alice@example.com" "alice" None
              (Some "/avatars/alice.png") (Some "access") (Some "refresh").

(** The user whose [_id] is the empty string. *)
Definition blankId : UserData.t :=
  UserData.mk (Some "") "alice@example.com" "alice" None None None None.

Definition portrait : File := mkFile "portrait.jpg" "image/jpeg".
Definition report : File := mkFile "report.pdf" "application/pdf".

(** The profile of [alice] on screen, in edit mode, the form seeded. *)
Definition editing : State :=
  setIsEditing true (syncCurrentUser (Some alice) initialState).

Definition withForm (email userName password : string)
    (files : option FileList) (s : State) : State :=
  setForm (ProfileFormData.mk email userName password files) s.

(** What the server sends back: its own spelling of the e-mail. *)
Definition serverAlice : UserData.t :=
  UserData.mk (Some "u1") "server@example.com" "server-alice" None
              (Some "/avatars/server.png") None None.

Definition allFine : Services :=
  mkServices (fun _ => Resolved "/uploads/new.jpg")
             (fun _ _ => Resolved serverAlice)
             (Resolved tt).

Definition uploadDown : Services :=
  mkServices (fun _ => Rejected) (fun _ _ => Resolved serverAlice) (Resolved tt).

Definition updateDown : Services :=
  mkServices (fun _ => Resolved "/uploads/new.jpg") (fun _ _ => Rejected)
             (Resolved tt).

(** Items with string ids and no location, over [nat] as the type of
    numbers and of time values. *)
Definition item (owner userId itemType : option string) : Item nat nat :=
  mkItem None (option_map IdString owner) (option_map IdString userId) itemType
         "keys" "a bunch of keys" "misc" None None None.

(** Two posts of the same text, told apart by their ids. *)
Definition post (id owner : string) : Item nat nat :=
  mkItem (Some id) (Some (IdString owner)) None (Some "lost")
         "keys" "a bunch of keys" "misc" None None None.

(** An item whose owner is a number. *)
Definition numbered (owner : nat) (itemType : string) : Item nat nat :=
  mkItem None (Some (IdNumber owner)) None (Some itemType)
         "keys" "a bunch of keys" "misc" None None None.

End Sample.

(* ===================================================================== *)
(** ** Destructive actions: delete account, logout, delete item *)
(* ===================================================================== *)

(** What these handlers do to the browser and the services, in order. They
    write no [useState] cell. *)
Inductive Action : Type :=
| Confirm (message : string)
| CallDeleteUser (id : string)
| CallLogout
| CallDeleteItem (itemId : string)
| SetLocationHref (href : string)
| LocationReload
| LogError (msg : string).

(** The answers of [window.confirm] and of the three service calls. *)
Record Browser := mkBrowser {
  confirm : string -> bool;
  deleteUser : string -> Outcome unit;
  logout : Outcome unit;
  deleteItem : string -> Outcome unit
}.

Definition deleteAccountPrompt : string :=
  "Are you sure you want to delete your account? This action cannot be undone.".

Definition deleteItemPrompt : string :=
  "Are you sure you want to delete this item?".

(** [handleDeleteAccount] (lines 154-166). *)
Definition handleDeleteAccount (env : Browser) (s : State) : list Action :=
  match localUser s with
  | None => []
  | Some lu =>
      match UserData._id lu with
      | None => []
      | Some id =>
          if negb (JS.truthyStr id) then []
          else if confirm env deleteAccountPrompt then
            match deleteUser env id with
            | Resolved _ =>
                [Confirm deleteAccountPrompt; CallDeleteUser id;
                 SetLocationHref "/login"]
            | Rejected =>
                [Confirm deleteAccountPrompt; CallDeleteUser id;
                 LogError "Failed to delete user account:"]
            end
          else [Confirm deleteAccountPrompt]
      end
  end.

(** [handleLogout] (lines 168-175). *)
Definition handleLogout (env : Browser) : list Action :=
  match logout env with
  | Resolved _ => [CallLogout; SetLocationHref "/login"]
  | Rejected => [CallLogout; LogError "Failed to logout:"]
  end.

(** [handleDeleteItem] (lines 177-187). *)
Definition handleDeleteItem (env : Browser) (itemId : string) : list Action :=
  if negb (confirm env deleteItemPrompt) then [Confirm deleteItemPrompt]
  else
    match deleteItem env itemId with
    | Resolved _ => [Confirm deleteItemPrompt; CallDeleteItem itemId; LocationReload]
    | Rejected =>
        [Confirm deleteItemPrompt; CallDeleteItem itemId;
         LogError "Error deleting item:"]
    end.

(* ===================================================================== *)
(** ** What the component draws *)
(* ===================================================================== *)

(** [src={tempImageURL || localUser.imgURL || defaultAvatar}] (line 281). *)
Inductive AvatarSrc : Type :=
| PreviewURL (url : ObjectURL)
| StoredURL (url : string)
| defaultAvatar.

Definition avatarSrc (tempImageURL : option ObjectURL) (localUser : UserData.t)
  : AvatarSrc :=
  match tempImageURL with
  | Some url => PreviewURL url
  | None =>
      match UserData.imgURL localUser with
      | Some url => if JS.truthyStr url then StoredURL url else defaultAvatar
      | None => defaultAvatar
      end
  end.

(** The right-hand column: the read-only lines with the three buttons, or
    the form with its field messages and the save button. *)
Inductive Panel : Type :=
| ViewPanel (userName email : string)
| EditPanel (fieldErrors : FieldErrors) (saveDisabled : bool).

Inductive Screen : Type :=
| NavigateToLogin
| LoadingText
| ProfilePage (avatar : AvatarSrc) (fileInput : bool) (uploadingText : bool)
              (panel : Panel).

(** The render of [UserProfile] (lines 214-215 and 267-403), without the
    item lists. *)
Definition renderProfile (loading isAuthenticated : bool) (s : State) : Screen :=
  if negb loading && negb isAuthenticated then NavigateToLogin
  else
    match localUser s with
    | None => LoadingText
    | Some lu =>
        ProfilePage (avatarSrc (tempImageURL s) lu) (isEditing s) (isUploading s)
          (if negb (isEditing s)
           then ViewPanel (if JS.truthyStr (UserData.userName lu)
                           then UserData.userName lu else "Not set")
                          (UserData.email lu)
           else EditPanel (errors s) (isUploading s))
    end.

(** The item type as the filter compares it (line 234). *)
Definition normalizedType (itemType : option string) : string :=
  JS.trim (JS.toLowerCase (JS.orEmpty itemType)).

(** The classification as the code makes it, in words: the current user id
    is not empty, the owner is truthy and its string is the user id (the
    legacy [userId] standing in when the owner is absent or falsy, that is
    the empty string or the number 0), and the normalized type is the one
    asked for. *)
Definition idIs (U : string) (v : option JsId) : Prop :=
  match v with
  | Some i => idTruthy i = true /\ idToString i = U
  | None => False
  end.

Definition idFalsy (v : option JsId) : Prop :=
  match v with
  | Some i => idTruthy i = false
  | None => True
  end.

Definition classified {number TimeValue : Type} (U : string) (T : ItemKind)
    (I : Item number TimeValue) : Prop :=
  U <> ""
  /\ (idIs U (owner I) \/ (idFalsy (owner I) /\ idIs U (userId I)))
  /\ normalizedType (itemType I) = typeParamString T.

#[global] Instance idIs_dec (U : string) (v : option JsId) : Decision (idIs U v).
Proof. destruct v; cbn; apply _. Defined.

#[global] Instance idFalsy_dec (v : option JsId) : Decision (idFalsy v).
Proof. destruct v; cbn; apply _. Defined.

#[global] Instance classified_dec {number TimeValue : Type} (U : string)
    (T : ItemKind) (I : Item number TimeValue) : Decision (classified U T I).
Proof. unfold classified. apply _. Defined.

(** The submit button in the browser. The form has no [noValidate] and the
    e-mail field is an [input type="email"] (line 364): when the browser
    finds the e-mail text malformed it shows its own message and fires no
    submit event, so [handleSubmit] does not run. [browserAcceptsEmail] is
    the browser's check; the other fields carry no constraint. *)
Definition submitForm (browserAcceptsEmail : string -> bool) (svc : Services)
    (isEmail : string -> bool) : Async unit :=
  fun σ =>
    if browserAcceptsEmail (ProfileFormData.email (form (st σ)))
    then handleSubmit svc isEmail σ
    else ret tt σ.

(** Strings of white space only. *)
Fixpoint allSpace (s : string) : bool :=
  match s with
  | EmptyString => true
  | String c r => JS.isSpace c && allSpace r
  end.

(** The effect is due at the next commit: a dependency differs from the
    values of its last run. *)
Definition effectDue (rt : Runtime) : Prop :=
  effectDeps rt
  <> Some (ProfileFormData.profileImage (form (component rt)),
           tempImageURL (component rt)).

(** A file is in the form field. *)
Definition filePicked (rt : Runtime) : Prop :=
  exists file files,
    ProfileFormData.profileImage (form (component rt)) = Some (file :: files).

(* ===================================================================== *)
(** ** The schema *)
(* ===================================================================== *)

Lemma checkPassword_None (v : string) :
  checkPassword v = None <-> 8 <= String.length v.
Proof.
  unfold checkPassword.
  destruct (Nat.leb_spec 8 (String.length v)); split; intros; try lia; try discriminate;
    reflexivity.
Qed.

Lemma checkUserName_None (v : string) :
  checkUserName v = None <-> 3 <= String.length v.
Proof.
  unfold checkUserName.
  destruct (Nat.leb_spec 3 (String.length v)); split; intros; try lia; try discriminate;
    reflexivity.
Qed.

Lemma checkEmail_None (isEmail : string -> bool) (v : string) :
  checkEmail isEmail v = None <-> isEmail v = true.
Proof.
  unfold checkEmail. destruct (isEmail v); split; intros; congruence.
Qed.

Lemma hasErrors_false (e : FieldErrors) :
  hasErrors e = false <->
  emailError e = None /\ userNameError e = None /\ passwordError e = None
  /\ profileImageError e = None.
Proof.
  destruct e as [[?|] [?|] [?|] [?|]]; cbn; intuition congruence.
Qed.

(** C1 (the code departs from the claim). The schema asks every password,
    the empty one included, for 8 characters: the empty password gets the
    field message, and a submit of an otherwise valid form whose password
    field is still empty stops at validation, whatever the services would
    answer: no call is made and the form stays in edit mode. *)
Theorem empty_password_is_rejected :
  checkPassword "" = Some "Password must be at least 8 characters"
  /\ forall svc : Services,
       let s := Sample.withForm "new@example.com" "alice2" "" None Sample.editing in
       let r := run (handleSubmit svc Email.emailSyntax) s in
       trace (snd r) = []
       /\ errors (st (snd r))
          = mkErrors None None (Some "Password must be at least 8 characters") None
       /\ isEditing (st (snd r)) = true
       /\ localUser (st (snd r)) = Some Sample.alice.
Proof.
  split; [reflexivity|]. intros svc. cbn. repeat split.
Qed.

(** A form that carries a PDF and is otherwise valid passes the schema with
    no message on any field, although the file is not of an accepted
    type. *)
Lemma pdf_passes_the_schema :
  let d := ProfileFormData.mk "alice@example.com" "alice" "newpass1"
             (Some [Sample.report]) in
  accepted Sample.report = false
  /\ hasErrors (profileFormSchema Email.emailSyntax d) = false
  /\ profileImageError (profileFormSchema Email.emailSyntax d) = None.
Proof. cbn. repeat split. Qed.

(** The schema never reports on [profileImage]: whether a form is accepted
    depends on its e-mail, user name and password alone. The JPEG/PNG
    restriction is written in the [accept] list of the file input only. *)
Lemma profile_image_is_not_validated :
  forall (isEmail : string -> bool) (d : ProfileFormData.t),
    profileImageError (profileFormSchema isEmail d) = None
    /\ (hasErrors (profileFormSchema isEmail d) = false <->
        isEmail (ProfileFormData.email d) = true
        /\ 3 <= String.length (ProfileFormData.userName d)
        /\ 8 <= String.length (ProfileFormData.password d))
    /\ (forall files : option FileList,
          profileFormSchema isEmail
            (ProfileFormData.mk (ProfileFormData.email d) (ProfileFormData.userName d)
               (ProfileFormData.password d) files)
          = profileFormSchema isEmail d).
Proof.
  intros isEmail d.
  assert (Hpi : forall v, checkProfileImage v = None) by (intros [?|]; reflexivity).
  split; [apply Hpi|]. split.
  - rewrite hasErrors_false. cbn [profileFormSchema emailError userNameError
      passwordError profileImageError].
    rewrite checkEmail_None, checkUserName_None, checkPassword_None.
    specialize (Hpi (ProfileFormData.profileImage d)). tauto.
  - intros files. unfold profileFormSchema. cbn.
    now rewrite !Hpi.
Qed.

(** C7 (the code departs from the claim). A picked file of a type outside
    the [accept] list of the file input is not rejected: the schema has no
    message for it, the effect stages it, and the submit uploads it and
    puts the returned URL into the update. *)
Theorem pdf_is_validated_and_uploaded :
  let rt := runEvents Email.emailSyntax initialRuntime
              [CurrentUserChanged (Some Sample.alice); Commit; EnterEdit; Commit;
               SelectImage [Sample.report]; Commit; EditPassword "newpass1"] in
  let s := component rt in
  accepted Sample.report = false
  /\ ProfileFormData.profileImage (form s) = Some [Sample.report]
  /\ selectedImage s = Some Sample.report
  /\ profileFormSchema Email.emailSyntax (form s) = noErrors
  /\ networkCalls (traceOf (handleSubmit Sample.allFine Email.emailSyntax) s)
     = [CallUploadImage Sample.report;
        CallUpdateUser "u1"
          (PartialUserData.mk None (Some "alice@example.com") (Some "alice")
             (Some "newpass1") (Some "/uploads/new.jpg") None None);
        CallUpdateAuthState]
  /\ errors (stateAfter (handleSubmit Sample.allFine Email.emailSyntax) s) = noErrors.
Proof. cbv zeta. repeat split; vm_compute; reflexivity. Qed.

(* ===================================================================== *)
(** ** onSubmit *)
(* ===================================================================== *)

Lemma addPassword_eq (data : ProfileFormData.t) (p : PartialUserData.t) :
  addPassword data p
  = if 8 <=? String.length (ProfileFormData.password data)
    then PartialUserData.withPassword p (ProfileFormData.password data)
    else p.
Proof.
  unfold addPassword. destruct (ProfileFormData.password data); reflexivity.
Qed.

(** The fields of the payload before the image step. *)
Lemma addPassword_fields (data : ProfileFormData.t) :
  let p := addPassword data (initialUpdate data) in
  let pw := ProfileFormData.password data in
  PartialUserData.email p = Some (ProfileFormData.email data)
  /\ PartialUserData.userName p = Some (ProfileFormData.userName data)
  /\ ((PartialUserData.password p = Some pw /\ 8 <= String.length pw)
      \/ (PartialUserData.password p = None /\ String.length pw < 8))
  /\ PartialUserData.imgURL p = None
  /\ PartialUserData._id p = None
  /\ PartialUserData.accessToken p = None
  /\ PartialUserData.refreshToken p = None.
Proof.
  cbv zeta. rewrite addPassword_eq.
  destruct (Nat.leb_spec 8 (String.length (ProfileFormData.password data)));
    cbn; repeat split; auto.
Qed.

(** Unfold one run of [onSubmit] and split on everything it branches on:
    the guard, the staged image and the three outcomes. *)
Ltac submit_cases svc s :=
  unfold traceOf, stateAfter, run, onSubmit, onSubmit_try, tryCatchFinally,
    bind, ret, update, emit, await in *;
  cbn [st trace] in *;
  destruct (localUser s) as [lu'|] eqn:Hlocal in *; cbn [st trace snd fst] in *;
  [ destruct (UserData._id lu') as [id'|] eqn:Hid in *; cbn [st trace snd fst] in *;
    [ destruct (JS.truthyStr id') eqn:Htruthy in *; cbn [negb st trace snd fst] in *;
      [ destruct (selectedImage s) as [file'|] eqn:Hsel in *;
        cbn [st trace snd fst] in *;
        [ destruct (uploadImage svc file') as [url'|] eqn:Hupload in *;
          cbn [st trace snd fst] in * | ];
        repeat match goal with
          | |- context [match updateUser svc ?i ?p with _ => _ end] =>
              destruct (updateUser svc i p) eqn:Hupdate in *;
              cbn [st trace snd fst] in *
          | H : context [match updateUser svc ?i ?p with _ => _ end] |- _ =>
              destruct (updateUser svc i p) eqn:Hupdate in *;
              cbn [st trace snd fst] in *
          | |- context [match updateAuthState svc with _ => _ end] =>
              destruct (updateAuthState svc) eqn:Hauth in *;
              cbn [st trace snd fst] in *
          | H : context [match updateAuthState svc with _ => _ end] |- _ =>
              destruct (updateAuthState svc) eqn:Hauth in *;
              cbn [st trace snd fst] in *
          end
      | ]
    | ]
  | ].

(** C10. When the local user copy is absent, or its [_id] is missing or
    empty, [onSubmit] returns at once: no service is called and the state,
    the uploading flag included, is the one it started from. *)
Theorem onSubmit_guard :
  forall (svc : Services) (data : ProfileFormData.t) (s : State),
    (localUser s = None
     \/ exists lu, localUser s = Some lu /\ JS.truthy (UserData._id lu) = false) ->
    run (onSubmit svc data) s = (Resolved tt, mkSys s []).
Proof.
  intros svc data s H. unfold run, onSubmit, ret.
  cbn [st]. destruct H as [-> | (lu & -> & Hid)]; [reflexivity|].
  destruct (UserData._id lu) as [id|]; [|reflexivity].
  cbn in Hid. now rewrite Hid.
Qed.

Lemma onSubmit_guard_witness :
  let s := setSelectedImage (Some Sample.portrait)
             (setLocalUser (Some Sample.blankId) Sample.editing) in
  let data := ProfileFormData.mk "new@example.com" "alice2" "newpass1" None in
  JS.truthy (UserData._id Sample.blankId) = false
  /\ run (onSubmit Sample.allFine data) s = (Resolved tt, mkSys s []).
Proof.
  cbv zeta. split; [reflexivity|].
  apply onSubmit_guard. right. exists Sample.blankId. split; reflexivity.
Defined.

Lemma sentUpdates_In (t : list Effect) (p : PartialUserData.t) :
  In p (sentUpdates t) <-> exists id, In (CallUpdateUser id p) t.
Proof.
  unfold sentUpdates. rewrite in_flat_map. split.
  - intros (e & He & Hp). destruct e; cbn in Hp; try tauto.
    destruct Hp as [<- | []]. eauto.
  - intros (id & Hin). exists (CallUpdateUser id p). split; [assumption | now left].
Qed.

(** What an update-user call in the trace of [onSubmit] tells: the guard was
    passed, the payload is the one built from the form (with the uploaded
    URL when an image was staged), and, when the call resolves, the state
    the handler ends in. *)
Lemma update_call_inv (svc : Services) (data : ProfileFormData.t) (s : State)
    (id : string) (p : PartialUserData.t) :
  In (CallUpdateUser id p) (traceOf (onSubmit svc data) s) ->
  exists lu,
    localUser s = Some lu /\ UserData._id lu = Some id /\ JS.truthyStr id = true
    /\ ((selectedImage s = None /\ p = addPassword data (initialUpdate data))
        \/ (exists file url, selectedImage s = Some file
              /\ uploadImage svc file = Resolved url
              /\ p = PartialUserData.withImgURL
                       (addPassword data (initialUpdate data)) url))
    /\ (forall r, updateUser svc id p = Resolved r ->
         stateAfter (onSubmit svc data) s
         = setIsUploading false
             (setIsEditing false
                (setTempImageUrl None
                   (setSelectedImage None
                      (setLocalUser (Some (mergedUser lu p))
                         (setIsUploading true s)))))).
Proof.
  intros Hin.
  submit_cases svc s; cbn in Hin;
    repeat match goal with
      | H : _ \/ _ |- _ => destruct H
      | H : False |- _ => destruct H
      | H : CallUpdateUser _ _ = CallUpdateUser _ _ |- _ => injection H as ? ?
      | H : _ = _ |- _ => discriminate H
      end;
    subst; exists lu'; (split; [reflexivity|]);
    (split; [first [reflexivity | eassumption]|]);
    (split; [assumption|]); split.
  all: try (intros r Hr; (reflexivity || congruence)).
  all: try (left; split; reflexivity).
  all: right; do 2 eexists; repeat split; eassumption || reflexivity.
Qed.



(** Whether the catch block of [onSubmit] is entered before the user copy
    is written: the upload of the staged image is rejected, or the
    update-user call that was issued is rejected. *)
Lemma failed_step_cases (svc : Services) (data : ProfileFormData.t) (s : State) :
  ((exists file, In (CallUploadImage file) (traceOf (onSubmit svc data) s)
                 /\ uploadImage svc file = Rejected)
   \/ (exists id p, In (CallUpdateUser id p) (traceOf (onSubmit svc data) s)
                    /\ updateUser svc id p = Rejected)) ->
  stateAfter (onSubmit svc data) s = setIsUploading false s.
Proof.
  intros H.
  submit_cases svc s;
    destruct H as [(f & Hin & Hrej) | (i & q & Hin & Hrej)]; cbn in Hin;
    repeat match goal with
      | H : _ \/ _ |- _ => destruct H
      | H : False |- _ => destruct H
      | H : CallUploadImage _ = CallUploadImage _ |- _ => injection H as ?
      | H : CallUpdateUser _ _ = CallUpdateUser _ _ |- _ => injection H as ? ?
      | H : _ = _ |- _ => discriminate H
      end;
    subst; try congruence; reflexivity.
Qed.

(** C4. When a step of a submit fails, the upload of the staged image or the
    update-user call, the local user copy is what it was before the submit;
    so are the edit mode, the staged image and its preview handle. *)
Theorem failed_submit_keeps_account :
  forall (svc : Services) (data : ProfileFormData.t) (s : State),
    ((exists file, In (CallUploadImage file) (traceOf (onSubmit svc data) s)
                   /\ uploadImage svc file = Rejected)
     \/ (exists id p, In (CallUpdateUser id p) (traceOf (onSubmit svc data) s)
                      /\ updateUser svc id p = Rejected)) ->
    let s' := stateAfter (onSubmit svc data) s in
    localUser s' = localUser s
    /\ isEditing s' = isEditing s
    /\ selectedImage s' = selectedImage s
    /\ tempImageURL s' = tempImageURL s
    /\ isUploading s' = false.
Proof.
  intros svc data s H s'. subst s'. rewrite (failed_step_cases svc data s H).
  repeat split.
Qed.

Lemma failed_submit_keeps_account_witness :
  let data := ProfileFormData.mk "new@example.com" "alice2" "newpass1" None in
  let s := setSelectedImage (Some Sample.portrait) Sample.editing in
  (uploadImage Sample.uploadDown Sample.portrait = Rejected
   /\ localUser (stateAfter (onSubmit Sample.uploadDown data) s) = Some Sample.alice)
  /\ (traceOf (onSubmit Sample.updateDown data) s
      = [CallUploadImage Sample.portrait;
         CallUpdateUser "u1"
           (PartialUserData.mk None (Some "new@example.com") (Some "alice2")
              (Some "newpass1") (Some "/uploads/new.jpg") None None);
         ConsoleError "Failed to update user details:"]
      /\ localUser (stateAfter (onSubmit Sample.updateDown data) s) = Some Sample.alice).
Proof.
  cbv zeta. split; (split; [reflexivity|]).
  - refine (proj1 (failed_submit_keeps_account Sample.uploadDown _ _ _)).
    left. exists Sample.portrait. split; [left; reflexivity | reflexivity].
  - refine (proj1 (failed_submit_keeps_account Sample.updateDown _ _ _)).
    right. do 2 eexists. split; [right; left; reflexivity | reflexivity].
Defined.

(** C5, as stated, fails: the answer of the update-user service is logged
    and not merged. Here the service answers with its own e-mail and user
    name; the user copy ends up with the values of the form. *)
Lemma response_is_not_merged :
  let data := ProfileFormData.mk "new@example.com" "alice2" "" None in
  let s' := stateAfter (onSubmit Sample.allFine data) Sample.editing in
  updateUser Sample.allFine "u1" (addPassword data (initialUpdate data))
    = Resolved Sample.serverAlice
  /\ In (ConsoleLog "User updated:" Sample.serverAlice)
        (traceOf (onSubmit Sample.allFine data) Sample.editing)
  /\ option_map UserData.email (localUser s') = Some "new@example.com"
  /\ option_map UserData.email (localUser s')
     <> Some (UserData.email Sample.serverAlice)
  /\ option_map UserData.userName (localUser s')
     <> Some (UserData.userName Sample.serverAlice).
Proof.
  cbv zeta. split; [reflexivity|]. split; [cbn; tauto|].
  split; [reflexivity|]. split; cbn; intros H; discriminate H.
Qed.

(** C5, amended. On a successful submit the partial update that was sent,
    not the answer of the service, is merged into the user copy: e-mail and
    user name are those of the form, every key the update lacks keeps its
    prior value, and so do the id and the tokens. With an empty password and
    no staged image the copy changes in e-mail and user name only, the
    avatar staying as it was. *)
Theorem successful_submit_merges_update :
  forall (svc : Services) (data : ProfileFormData.t) (s : State)
         (lu : UserData.t) (id : string) (p : PartialUserData.t) (r : UserData.t),
    localUser s = Some lu ->
    In (CallUpdateUser id p) (traceOf (onSubmit svc data) s) ->
    updateUser svc id p = Resolved r ->
    exists u',
      localUser (stateAfter (onSubmit svc data) s) = Some u'
      /\ UserData.email u' = ProfileFormData.email data
      /\ UserData.userName u' = ProfileFormData.userName data
      /\ UserData._id u' = UserData._id lu
      /\ UserData.accessToken u' = UserData.accessToken lu
      /\ UserData.refreshToken u' = UserData.refreshToken lu
      /\ (PartialUserData.password p = None ->
          UserData.password u' = UserData.password lu)
      /\ (PartialUserData.imgURL p = None ->
          UserData.imgURL u' = UserData.imgURL lu)
      /\ (ProfileFormData.password data = "" -> selectedImage s = None ->
          u' = UserData.mk (UserData._id lu) (ProfileFormData.email data)
                 (ProfileFormData.userName data) (UserData.password lu)
                 (UserData.imgURL lu) (UserData.accessToken lu)
                 (UserData.refreshToken lu)).
Proof.
  intros svc data s lu id p r Hlu Hin Hr.
  destruct (update_call_inv svc data s id p Hin) as (lu0 & Hlu0 & _ & _ & Hp & Hst).
  assert (lu0 = lu) by congruence. subst lu0.
  exists (mergedUser lu p). rewrite (Hst r Hr).
  pose proof (addPassword_fields data) as F. cbv zeta in F.
  destruct F as (Fe & Fu & Fp & Fi & F1 & F2 & F3).
  assert (Hfields :
    PartialUserData.email p = Some (ProfileFormData.email data)
    /\ PartialUserData.userName p = Some (ProfileFormData.userName data)
    /\ PartialUserData._id p = None /\ PartialUserData.accessToken p = None
    /\ PartialUserData.refreshToken p = None).
  { destruct Hp as [(_ & ->) | (file & url & _ & _ & ->)]; cbn; auto. }
  destruct Hfields as (He & Hu & H1 & H2 & H3).
  split; [reflexivity|].
  unfold mergedUser, withImgURL, spread. cbn.
  rewrite He, Hu, H1, H2, H3. cbn.
  repeat split.
  - intros ->. reflexivity.
  - intros ->. reflexivity.
  - intros Hpw Hsel.
    destruct Hp as [(_ & ->) | (file & url & Hsel' & _ & _)]; [|congruence].
    rewrite addPassword_eq, Hpw. reflexivity.
Qed.

Lemma successful_submit_merges_update_witness :
  let data := ProfileFormData.mk "new@example.com" "alice2" "" None in
  exists u',
    localUser (stateAfter (onSubmit Sample.allFine data) Sample.editing) = Some u'
    /\ UserData.email u' = "new@example.com"
    /\ UserData.userName u' = "alice2"
    /\ UserData.imgURL u' = Some "/avatars/alice.png".
Proof.
  cbv zeta.
  destruct (successful_submit_merges_update Sample.allFine
              (ProfileFormData.mk "new@example.com" "alice2" "" None)
              Sample.editing Sample.alice "u1"
              (PartialUserData.mk None (Some "new@example.com") (Some "alice2")
                 None None None None)
              Sample.serverAlice eq_refl (or_introl eq_refl) eq_refl)
    as (u' & Hu & He & Hn & _ & _ & _ & _ & Hi & _).
  exists u'. repeat split; try assumption.
  exact (Hi eq_refl).
Defined.

(* ===================================================================== *)
(** ** The item lists *)
(* ===================================================================== *)

Lemma truthyStr_true (U : string) : JS.truthyStr U = true <-> U <> "".
Proof. destruct U; cbn; split; congruence. Qed.

(** [a || b] on ids, read as a proposition: the value is truthy and prints
    as [U] exactly when [a] does, or [a] is absent or falsy and [b] does. *)
Lemma orId_is (a b : option JsId) (U : string) :
  (truthyId (orId a b) = true /\ toStringId (orId a b) = U)
  <-> idIs U a \/ (idFalsy a /\ idIs U b).
Proof.
  unfold orId. destruct a as [i|]; cbn [truthyId idIs idFalsy].
  - destruct (idTruthy i) eqn:Hi; cbn [truthyId toStringId].
    + rewrite Hi. intuition congruence.
    + destruct b as [j|]; cbn [truthyId toStringId idIs]; intuition congruence.
  - destruct b as [j|]; cbn [truthyId toStringId idIs]; intuition congruence.
Qed.

(** The callback of the filter, read as a proposition. *)
Lemma isUserItem_true {number TimeValue : Type} (cu : UserData.t) (U : string)
    (T : ItemKind) (I : Item number TimeValue) :
  UserData._id cu = Some U ->
  (isUserItem (Some cu) T I = true <-> classified U T I).
Proof.
  intros Hid. unfold isUserItem, classified, normalizedType. rewrite Hid.
  rewrite <- (orId_is (owner I) (userId I) U), <- truthyStr_true.
  cbn [JS.truthy toString].
  destruct (truthyId (orId (owner I) (userId I))); cbn [negb orb];
    [|intuition congruence].
  destruct (JS.truthyStr U); cbn [negb orb]; [|intuition congruence].
  destruct (String.eqb_spec (toStringId (orId (owner I) (userId I))) U) as [He | Hne];
    cbn [negb].
  - rewrite String.eqb_eq. tauto.
  - intuition congruence.
Qed.

(** A boolean filter is the filter of the proposition it decides. *)
Lemma filter_decide {A : Type} (f : A -> bool) (P : A -> Prop)
    `{forall x, Decision (P x)} (l : list A) :
  (forall x, f x = true <-> P x) ->
  List.filter f l = filter P l.
Proof.
  intros Hf. induction l as [|x l IH]; [reflexivity|].
  cbn [List.filter]. rewrite filter_cons, IH.
  destruct (decide (P x)) as [HP | HP].
  - apply Hf in HP. now rewrite HP.
  - destruct (f x) eqn:Hx; [apply Hf in Hx; contradiction | reflexivity].
Qed.

Lemma filter_sublist {A : Type} (f : A -> bool) (l : list A) :
  sublist (List.filter f l) l.
Proof.
  induction l as [|x l IH]; cbn.
  - constructor.
  - destruct (f x); [apply sublist_skip | apply sublist_cons]; exact IH.
Qed.

Example trim_lower_samples :
  JS.trim (JS.toLowerCase "  Lost ") = "lost"
  /\ JS.trim (JS.toLowerCase "FOUND") = "found"
  /\ JS.trim " lo st " = "lo st"
  /\ JS.trim "   " = "".
Proof. repeat split. Qed.

(** The scenario of the specification: an item of the user whose type
    reads "Lost " is in the lost list. *)
Example lost_with_trailing_space :
  filtered (Some Sample.alice) lost [Sample.item (Some "u1") None (Some "Lost ")]
  = [Sample.item (Some "u1") None (Some "Lost ")].
Proof. reflexivity. Qed.

(** The comparison goes through [String]: a numeric owner 123 belongs to
    the user whose id is the string "123". *)
Example numeric_owner_is_normalized :
  let u123 := UserData.mk (Some "123") "bob@example.com" "bob" None None None None in
  filtered (Some u123) lost [Sample.numbered 123 "lost"; Sample.numbered 12 "lost"]
  = [Sample.numbered 123 "lost"].
Proof. reflexivity. Qed.

(** C2, as stated, fails where an id is falsy. An item whose owner is the
    empty string falls back to the legacy [userId], so it is listed for that
    user although its owner, which is present, differs from the user id.
    When the current user id is the empty string nothing is listed, not even
    an item whose owner equals that id. And an item whose owner is the number
    0 is not listed for the user "0", although the two agree as strings. *)
Lemma classification_claim_fails :
  let legacy := Sample.item (Some "") (Some "u1") (Some "lost") in
  let blank := Sample.item (Some "") None (Some "lost") in
  let zero := Sample.numbered 0 "lost" in
  let u0 := UserData.mk (Some "0") "bob@example.com" "bob" None None None None in
  (filtered (Some Sample.alice) lost [legacy] = [legacy]
   /\ List.filter (classify_spec "u1" lost) [legacy] = [])
  /\ (filtered (Some Sample.blankId) lost [blank] = []
      /\ List.filter (classify_spec "" lost) [blank] = [blank])
  /\ (filtered (Some u0) lost [zero] = []
      /\ List.filter (classify_spec "0" lost) [zero] = [zero]).
Proof. cbv zeta. repeat split. Qed.

(** C2, amended. For a current user with id [U], the filtered list is the
    input with exactly the items removed that are not classified: what stays
    are the items for which [U] is not empty, the string-normalized owner
    (the legacy [userId] standing in when the owner is absent or falsy) is
    truthy and equals [U], and the lowercased, trimmed item type is the type
    asked for, each as often as the input has it and in the input order. *)
Theorem filtered_exactly :
  forall (number TimeValue : Type) (cu : UserData.t) (U : string) (T : ItemKind)
         (items : list (Item number TimeValue)),
    UserData._id cu = Some U ->
    filtered (Some cu) T items = filter (classified U T) items
    /\ (forall I : Item number TimeValue,
          In I (filtered (Some cu) T items) <->
          In I items
          /\ U <> ""
          /\ (idIs U (owner I) \/ (idFalsy (owner I) /\ idIs U (userId I)))
          /\ JS.trim (JS.toLowerCase (JS.orEmpty (itemType I))) = typeParamString T)
    /\ sublist (filtered (Some cu) T items) items.
Proof.
  intros number TimeValue cu U T items Hid. split; [|split].
  - unfold filtered. apply filter_decide. intros I. apply isUserItem_true, Hid.
  - intros I. unfold filtered. rewrite filter_In, (isUserItem_true cu U T I Hid).
    unfold classified, normalizedType. tauto.
  - apply filter_sublist.
Qed.

Lemma filtered_exactly_witness :
  let first := Sample.post "i1" "u1" in
  let second := Sample.post "i2" "u1" in
  let other := Sample.item (Some "u2") (Some "u1") (Some "lost") in
  let legacy := Sample.item None (Some "u1") (Some "Lost ") in
  UserData._id Sample.alice = Some "u1"
  /\ filtered (Some Sample.alice) lost [first; other; second; legacy; first]
     = [first; second; legacy; first]
  /\ filtered (Some Sample.alice) lost [first; other; second; legacy; first]
     = filter (classified "u1" lost) [first; other; second; legacy; first].
Proof.
  cbv zeta. split; [reflexivity|]. split; [reflexivity|].
  exact (proj1 (filtered_exactly nat nat Sample.alice "u1" lost
                  [Sample.post "i1" "u1";
                   Sample.item (Some "u2") (Some "u1") (Some "lost");
                   Sample.post "i2" "u1";
                   Sample.item None (Some "u1") (Some "Lost ");
                   Sample.post "i1" "u1"] eq_refl)).
Defined.

(** C9 (the code departs from the claim). A card shows [item.location] as it
    is: a string location appears unchanged, but a coordinate object is
    handed to the renderer as an object, which it cannot show.
    [formatLocation], which would produce the "Lat: .., Lng: .." text, is not
    applied where the card is built. *)
Theorem card_location_is_raw :
  forall (number TimeValue : Type) (toFixed : number -> nat -> string)
         (i : option string) (o u : option JsId) (t : option string)
         (n d c s : string) (dt : option (DateInput TimeValue))
         (img : option string) (lat lng : number),
    let coords := Some (LocObject (Some lat) (Some lng)) in
    cardLocation
      (renderCard (mkItem i o u t n d c (Some (@LocText number s)) dt img))
      = Text s
    /\ cardLocation (renderCard (mkItem i o u t n d c coords dt img))
       = NotRenderable
    /\ formatLocation number toFixed coords
       = ("Lat: " ++ toFixed lat 4 ++ ", Lng: " ++ toFixed lng 4)%string
    /\ cardLocation (renderCard (mkItem i o u t n d c coords dt img))
       <> Text (formatLocation number toFixed coords).
Proof.
  intros. subst coords. cbn. repeat split. intros H; discriminate H.
Qed.

(* ===================================================================== *)
(** ** The edit session: cancel and the preview handles *)
(* ===================================================================== *)

Lemma stateAfter_handleSubmit (svc : Services) (isEmail : string -> bool) (s : State) :
  stateAfter (handleSubmit svc isEmail) s
  = if hasErrors (profileFormSchema isEmail (form s))
    then setErrors (profileFormSchema isEmail (form s)) s
    else stateAfter (onSubmit svc (form s)) (setErrors noErrors s).
Proof.
  unfold stateAfter, run, handleSubmit. cbn [st].
  destruct (hasErrors (profileFormSchema isEmail (form s))); reflexivity.
Qed.

(** A submit leaves the preview handle alone or clears it. *)
Lemma onSubmit_tempImageURL (svc : Services) (data : ProfileFormData.t) (s : State) :
  tempImageURL (stateAfter (onSubmit svc data) s) = tempImageURL s
  \/ tempImageURL (stateAfter (onSubmit svc data) s) = None.
Proof. submit_cases svc s; cbn; auto. Qed.

Lemma handleSubmit_tempImageURL (svc : Services) (isEmail : string -> bool) (s : State) :
  tempImageURL (stateAfter (handleSubmit svc isEmail) s) = tempImageURL s
  \/ tempImageURL (stateAfter (handleSubmit svc isEmail) s) = None.
Proof.
  rewrite stateAfter_handleSubmit.
  destruct (hasErrors (profileFormSchema isEmail (form s))); [left; reflexivity|].
  exact (onSubmit_tempImageURL svc (form s) (setErrors noErrors s)).
Qed.

Section HandleInvariant.

Variable isEmail : string -> bool.

Lemma handlesOrdered_initial : handlesOrdered initialRuntime.
Proof.
  split; [|split; [|split]]; cbn; try (intros; discriminate); try tauto; lia.
Qed.

(** Handlers that touch the component only keep the invariant, as long as
    they leave the preview handle alone or clear it. *)
Lemma handlesOrdered_withComponent (rt : Runtime) (s' : State) :
  handlesOrdered rt ->
  (tempImageURL s' = tempImageURL (component rt) \/ tempImageURL s' = None) ->
  handlesOrdered (withComponent s' rt).
Proof.
  intros (Hrev & Hcount & Htemp & Hclean) Hs'.
  split; [|split; [|split]]; cbn; auto.
  intros t Ht. destruct Hs' as [Hs' | Hs']; rewrite Hs' in Ht;
    [auto | discriminate].
Qed.

Lemma handlesOrdered_runCleanup (rt : Runtime) :
  handlesOrdered rt ->
  handlesOrdered (runCleanup rt) /\ effectCleanup (runCleanup rt) = None
  /\ component (runCleanup rt) = component rt
  /\ created (runCleanup rt) = created rt.
Proof.
  intros (Hrev & Hcount & Htemp & Hclean). unfold runCleanup.
  unfold pendingRevokes in Hcount.
  destruct (effectCleanup rt) as [[c|]|] eqn:Hc; cbn;
    (split; [|auto]); (split; [|split; [|split]]); cbn; auto;
    try (intros; discriminate); try lia.
  intros u [<- | Hu]; [apply (Hclean c eq_refl) | auto].
Qed.

(** The body of the effect after the cleanup, with [seen] as the value the
    closure captures: the invariant is kept as long as [seen] is absent or
    a handle created before. *)
Lemma handlesOrdered_body (rt : Runtime) (seen : option ObjectURL)
    (deps : option (option FileList * option ObjectURL))
    (file : File) :
  handlesOrdered rt ->
  effectCleanup rt = None ->
  (forall u, seen = Some u -> u < created rt) ->
  handlesOrdered
    (mkRuntime (setTempImageUrl (Some (created rt))
                  (setSelectedImage (Some file) (component rt)))
               deps (Some seen) (S (created rt)) (revoked rt)).
Proof.
  intros (Hrev & Hcount & Htemp & Hclean) Hnone Hseen.
  unfold pendingRevokes in Hcount. rewrite Hnone in Hcount.
  split; [|split; [|split]]; cbn.
  - intros u Hu. specialize (Hrev u Hu). lia.
  - unfold pendingRevokes. cbn. destruct seen as [u|]; [|lia].
    specialize (Hseen u eq_refl). lia.
  - intros t [= <-]. reflexivity.
  - intros c [= ->]. specialize (Hseen c eq_refl). lia.
Qed.

(** The same when no file is in the field: no handle, no cleanup. *)
Lemma handlesOrdered_idle (rt : Runtime)
    (deps : option (option FileList * option ObjectURL)) :
  handlesOrdered rt ->
  effectCleanup rt = None ->
  handlesOrdered (mkRuntime (component rt) deps None (created rt) (revoked rt)).
Proof.
  intros (Hrev & Hcount & Htemp & Hclean) Hnone.
  unfold pendingRevokes in Hcount. rewrite Hnone in Hcount.
  split; [|split; [|split]]; cbn; auto. intros c Hc; discriminate Hc.
Qed.

Lemma handlesOrdered_commit (rt : Runtime) :
  handlesOrdered rt -> handlesOrdered (commit rt).
Proof.
  intros Hinv. unfold commit.
  destruct (decide _) as [_ | _]; [assumption|].
  destruct (handlesOrdered_runCleanup rt Hinv) as (Hinv1 & Hnone & Hcomp & Hcre).
  unfold imageEffect. cbn [component created revoked effectCleanup effectDeps].
  destruct (ProfileFormData.profileImage (form (component (runCleanup rt))))
    as [[|file files]|] eqn:Hwatch.
  1, 3: apply handlesOrdered_idle; assumption.
  apply handlesOrdered_body; [assumption | assumption |].
  intros u Hu. destruct Hinv1 as (_ & _ & Htemp & _). apply Htemp in Hu. lia.
Qed.

Lemma handlesOrdered_staleCommit (seen : option ObjectURL) (rt : Runtime) :
  handlesOrdered rt -> handlesOrdered (staleCommit seen rt).
Proof.
  intros Hinv. unfold staleCommit.
  destruct (handlesOrdered_runCleanup rt Hinv) as (Hinv1 & Hnone & Hcomp & Hcre).
  destruct seen as [u|]; cbn [negb].
  - destruct (Nat.ltb_spec u (created rt)) as [Hlt | Hge]; cbn [negb];
      [|assumption].
    destruct (ProfileFormData.profileImage (form (component (runCleanup rt))))
      as [[|file files]|] eqn:Hwatch.
    1, 3: apply handlesOrdered_idle; assumption.
    apply handlesOrdered_body; [assumption | assumption |].
    intros v [= <-]. lia.
  - destruct (ProfileFormData.profileImage (form (component (runCleanup rt))))
      as [[|file files]|] eqn:Hwatch.
    1, 3: apply handlesOrdered_idle; assumption.
    apply handlesOrdered_body; [assumption | assumption |].
    intros v Hv. discriminate Hv.
Qed.

Lemma handlesOrdered_step (rt : Runtime) (e : Event) :
  handlesOrdered rt -> handlesOrdered (step isEmail rt e).
Proof.
  intros Hinv. destruct e; cbn [step].
  1-7: apply handlesOrdered_withComponent; [assumption|].
  - left. destruct currentUser; reflexivity.
  - left; reflexivity.
  - left; reflexivity.
  - left; reflexivity.
  - left; reflexivity.
  - left; reflexivity.
  - right. unfold handleCancelEdit. reflexivity.
  - apply handlesOrdered_withComponent; [assumption|].
    apply handleSubmit_tempImageURL.
  - apply handlesOrdered_commit; assumption.
  - apply handlesOrdered_staleCommit; assumption.
  - apply handlesOrdered_runCleanup; assumption.
Qed.

Lemma handlesOrdered_runEvents (es : list Event) (rt : Runtime) :
  handlesOrdered rt -> handlesOrdered (runEvents isEmail rt es).
Proof.
  revert rt. induction es as [|e es IH]; intros rt Hinv; cbn; [assumption|].
  apply IH, handlesOrdered_step, Hinv.
Qed.

(** Once a handle exists, fewer revoke calls were made than handles were
    created. *)
Lemma handlesOrdered_lag (rt : Runtime) :
  handlesOrdered rt -> 0 < created rt -> length (revoked rt) < created rt.
Proof.
  intros (_ & Hcount & _ & _) Hpos. lia.
Qed.

End HandleInvariant.

(** The schedule the browser follows after one file is picked: every commit
    re-runs the effect, because each run replaces [tempImageURL] by a new
    handle. The cleanup revokes the handle of the render before, never the
    newest one. *)
Example three_commits_after_a_pick :
  let rt := runEvents Email.emailSyntax initialRuntime
              [CurrentUserChanged (Some Sample.alice); Commit; EnterEdit; Commit;
               SelectImage [Sample.portrait]; Commit; Commit; Commit] in
  created rt = 3 /\ revoked rt = [0]
  /\ tempImageURL (component rt) = Some 2 /\ effectCleanup rt = Some (Some 1).
Proof. cbv zeta. repeat split. Qed.

(** After a cancel the file is still the value of the form field, so the
    next commit stages it again under a new handle. *)
Example commit_after_cancel_stages_again :
  let picked := [CurrentUserChanged (Some Sample.alice); Commit; EnterEdit; Commit;
                 SelectImage [Sample.portrait]; Commit; Commit; Commit] in
  let cancelled := runEvents Email.emailSyntax initialRuntime (picked ++ [CancelEdit]) in
  let next := runEvents Email.emailSyntax initialRuntime (picked ++ [CancelEdit; Commit]) in
  (selectedImage (component cancelled) = None
   /\ tempImageURL (component cancelled) = None
   /\ created cancelled = 3 /\ revoked cancelled = [0])
  /\ (selectedImage (component next) = Some Sample.portrait
      /\ tempImageURL (component next) = Some 3
      /\ created next = 4 /\ revoked next = [1; 0]).
Proof. cbv zeta. repeat split. Qed.

(** C6 (the code departs from the claim). After any sequence of events,
    picks, cancels, submits, commits and the unmount included, as soon as one
    preview handle has been created the handles revoked are fewer than the
    handles created: the newest handle is never revoked. *)
Theorem preview_handles_never_balance :
  forall (isEmail : string -> bool) (es : list Event),
    let rt := runEvents isEmail initialRuntime es in
    0 < created rt ->
    length (revoked rt) < created rt.
Proof.
  intros isEmail es rt Hpos. subst rt.
  apply handlesOrdered_lag; [|assumption].
  apply handlesOrdered_runEvents, handlesOrdered_initial.
Qed.

Lemma preview_handles_never_balance_witness :
  let rt := runEvents Email.emailSyntax initialRuntime
              [CurrentUserChanged (Some Sample.alice); Commit; EnterEdit; Commit;
               SelectImage [Sample.portrait]; Commit; Commit; Commit;
               CancelEdit; Commit; Unmount] in
  created rt = 4 /\ length (revoked rt) < created rt.
Proof.
  cbv zeta. split; [reflexivity|].
  apply (preview_handles_never_balance Email.emailSyntax
           [CurrentUserChanged (Some Sample.alice); Commit; EnterEdit; Commit;
            SelectImage [Sample.portrait]; Commit; Commit; Commit;
            CancelEdit; Commit; Unmount]).
  vm_compute. lia.
Defined.

(** One commit at which the effect is due, with a file in the field: the
    first file is staged under a fresh handle; nothing else of the component
    changes. *)
Lemma commit_stages_file (rt : Runtime) (file : File) (files : FileList) :
  ProfileFormData.profileImage (form (component rt)) = Some (file :: files) ->
  effectDue rt ->
  component (commit rt)
  = setTempImageUrl (Some (created rt))
      (setSelectedImage (Some file) (component rt))
  /\ created (commit rt) = S (created rt).
Proof.
  intros Hfile Hdue. unfold effectDue in Hdue. unfold commit.
  destruct (decide _) as [Heq | _]; [contradiction|].
  unfold imageEffect, runCleanup.
  destruct (effectCleanup rt) as [[c|]|];
    cbn [component created revoked effectCleanup effectDeps];
    rewrite Hfile; split; reflexivity.
Qed.

Section Cancel.

Variable isEmail : string -> bool.

Lemma commit_localUser (rt : Runtime) :
  localUser (component (commit rt)) = localUser (component rt).
Proof.
  unfold commit. destruct (decide _) as [_ | _]; [reflexivity|].
  unfold imageEffect, runCleanup.
  destruct (effectCleanup rt) as [[c|]|]; cbn;
    destruct (ProfileFormData.profileImage (form (component rt))) as [[|f fs]|];
    reflexivity.
Qed.

Lemma staleCommit_localUser (seen : option ObjectURL) (rt : Runtime) :
  localUser (component (staleCommit seen rt)) = localUser (component rt).
Proof.
  unfold staleCommit. destruct (negb _); [reflexivity|].
  unfold runCleanup.
  destruct (effectCleanup rt) as [[c|]|]; cbn;
    destruct (ProfileFormData.profileImage (form (component rt))) as [[|f fs]|];
    reflexivity.
Qed.

(** Typing, picking files and the commits in between do not touch the
    user copy. *)
Lemma editAction_localUser (rt : Runtime) (e : Event) :
  isEditAction e = true ->
  localUser (component (step isEmail rt e)) = localUser (component rt).
Proof.
  destruct e; cbn [isEditAction]; try discriminate; intros _;
    try reflexivity.
  - apply commit_localUser.
  - apply staleCommit_localUser.
Qed.

Lemma editActions_localUser (es : list Event) (rt : Runtime) :
  forallb isEditAction es = true ->
  localUser (component (runEvents isEmail rt es)) = localUser (component rt).
Proof.
  revert rt. induction es as [|e es IH]; intros rt Hes; [reflexivity|].
  cbn [forallb] in Hes. apply andb_true_iff in Hes as [He Hes].
  change (runEvents isEmail rt (e :: es))
    with (runEvents isEmail (step isEmail rt e) es).
  rewrite (IH _ Hes). apply editAction_localUser, He.
Qed.

End Cancel.

(** What the cancel handler writes. Enter edit mode, type into the fields
    and pick files in any order, then cancel: when the handler returns, the
    local user copy is the one from before edit mode was entered, both
    staging cells hold null, the component is in view mode, and the three
    fields of the form are seeded again from the user copy, the password
    with the empty string. *)
Lemma cancel_leaves_account :
  forall (isEmail : string -> bool) (rt0 : Runtime) (es : list Event),
    forallb isEditAction es = true ->
    let s' := component (runEvents isEmail rt0 (EnterEdit :: es ++ [CancelEdit])) in
    localUser s' = localUser (component rt0)
    /\ selectedImage s' = None
    /\ tempImageURL s' = None
    /\ isEditing s' = false
    /\ match localUser (component rt0) with
       | Some lu =>
           ProfileFormData.email (form s') = UserData.email lu
           /\ ProfileFormData.userName (form s') = UserData.userName lu
           /\ ProfileFormData.password (form s') = ""
       | None => True
       end.
Proof.
  intros isEmail rt0 es Hes s'. subst s'.
  change (EnterEdit :: es ++ [CancelEdit]) with ((EnterEdit :: es) ++ [CancelEdit]).
  unfold runEvents. rewrite fold_left_app. cbn [fold_left].
  fold (runEvents isEmail (step isEmail rt0 EnterEdit) es).
  pose proof (editActions_localUser isEmail es (step isEmail rt0 EnterEdit) Hes) as Hlu.
  cbn [step withComponent component] in Hlu |- *.
  set (s := component (runEvents isEmail _ es)) in *.
  change (localUser (setIsEditing true (component rt0)))
    with (localUser (component rt0)) in Hlu.
  unfold handleCancelEdit. rewrite <- Hlu.
  destruct (localUser s) as [lu|] eqn:Hs; cbn; rewrite ?Hs; repeat split.
Qed.

Lemma cancel_leaves_account_witness :
  let rt0 := runEvents Email.emailSyntax initialRuntime
               [CurrentUserChanged (Some Sample.alice); Commit] in
  let es := [EditEmail "typo@"; SelectImage [Sample.portrait]; Commit; Commit;
             EditPassword "secret"; SelectImage [Sample.report]; Commit] in
  let s' := component (runEvents Email.emailSyntax rt0 (EnterEdit :: es ++ [CancelEdit])) in
  forallb isEditAction es = true
  /\ localUser s' = Some Sample.alice
  /\ selectedImage s' = None
  /\ tempImageURL s' = None.
Proof.
  cbv zeta. split; [reflexivity|].
  pose proof (cancel_leaves_account Email.emailSyntax
                (runEvents Email.emailSyntax initialRuntime
                   [CurrentUserChanged (Some Sample.alice); Commit])
                [EditEmail "typo@"; SelectImage [Sample.portrait]; Commit; Commit;
                 EditPassword "secret"; SelectImage [Sample.report]; Commit]
                eq_refl) as (Hlu & Hsel & Htemp & _).
  repeat split; assumption.
Defined.

(** C8 (the code departs from the claim). The account half holds: after any
    typing and picking, a cancel and the commit that follows leave the local
    user copy as it was before edit mode was entered. The staged image is
    not cleared for good: the handler writes null to the staged image and
    to its preview, but it leaves the file in the file field, so the commit
    of the cancel stages that file again, under a new preview handle, with
    the component in view mode. *)
Theorem cancel_does_not_clear_staged_image :
  forall (isEmail : string -> bool) (rt0 : Runtime) (es : list Event)
         (file : File) (files : FileList),
    forallb isEditAction es = true ->
    let rt := runEvents isEmail rt0 (EnterEdit :: es ++ [CancelEdit]) in
    ProfileFormData.profileImage (form (component rt)) = Some (file :: files) ->
    effectDeps rt <> Some (Some (file :: files), None) ->
    localUser (component (commit rt)) = localUser (component rt0)
    /\ (selectedImage (component rt) = None /\ tempImageURL (component rt) = None)
    /\ selectedImage (component (commit rt)) = Some file
    /\ tempImageURL (component (commit rt)) = Some (created rt)
    /\ isEditing (component (commit rt)) = false.
Proof.
  intros isEmail rt0 es file files Hes rt Hfile Hdeps.
  destruct (cancel_leaves_account isEmail rt0 es Hes) as (Hlu & Hsel & Htemp & Hed & _).
  fold rt in Hlu, Hsel, Htemp, Hed.
  destruct (commit_stages_file rt file files Hfile) as (Hc & _).
  - unfold effectDue. rewrite Hfile, Htemp. exact Hdeps.
  - rewrite Hc. cbn [localUser selectedImage tempImageURL isEditing
                     setTempImageUrl setSelectedImage].
    repeat split; assumption.
Qed.

Lemma cancel_does_not_clear_staged_image_witness :
  let rt0 := runEvents Email.emailSyntax initialRuntime
               [CurrentUserChanged (Some Sample.alice); Commit] in
  let es := [SelectImage [Sample.portrait]; Commit; Commit; EditEmail "typo@"] in
  let rt := runEvents Email.emailSyntax rt0 (EnterEdit :: es ++ [CancelEdit]) in
  forallb isEditAction es = true
  /\ effectDeps rt = Some (Some [Sample.portrait], Some 0)
  /\ selectedImage (component rt) = None
  /\ selectedImage (component (commit rt)) = Some Sample.portrait
  /\ tempImageURL (component (commit rt)) = Some 2
  /\ isEditing (component (commit rt)) = false
  /\ localUser (component (commit rt)) = Some Sample.alice.
Proof.
  cbv zeta. split; [reflexivity|]. split; [vm_compute; reflexivity|].
  destruct (cancel_does_not_clear_staged_image Email.emailSyntax
              (runEvents Email.emailSyntax initialRuntime
                 [CurrentUserChanged (Some Sample.alice); Commit])
              [SelectImage [Sample.portrait]; Commit; Commit; EditEmail "typo@"]
              Sample.portrait [] eq_refl)
    as (Hlu & (Hsel & _) & Hsel' & Htemp' & Hed).
  - vm_compute. reflexivity.
  - vm_compute. intros H. discriminate H.
  - repeat split; assumption.
Defined.

(* ===================================================================== *)
(** ** More on onSubmit and handleSubmit *)
(* ===================================================================== *)

Lemma run_handleSubmit (svc : Services) (isEmail : string -> bool) (s : State) :
  run (handleSubmit svc isEmail) s
  = if hasErrors (profileFormSchema isEmail (form s))
    then (Resolved tt, mkSys (setErrors (profileFormSchema isEmail (form s)) s) [])
    else run (onSubmit svc (form s)) (setErrors noErrors s).
Proof.
  unfold run, handleSubmit. cbn [st].
  destruct (hasErrors (profileFormSchema isEmail (form s))); reflexivity.
Qed.

Lemma hasErrors_true (isEmail : string -> bool) (d : ProfileFormData.t) :
  hasErrors (profileFormSchema isEmail d) = true <->
  isEmail (ProfileFormData.email d) = false
  \/ String.length (ProfileFormData.userName d) < 3
  \/ String.length (ProfileFormData.password d) < 8.
Proof.
  rewrite <- not_false_iff_true, hasErrors_false.
  cbn [profileFormSchema emailError userNameError passwordError profileImageError].
  rewrite checkEmail_None, checkUserName_None, checkPassword_None.
  assert (checkProfileImage (ProfileFormData.profileImage d) = None) as ->
    by (destruct (ProfileFormData.profileImage d); reflexivity).
  destruct (isEmail (ProfileFormData.email d)); split; intros H.
  - destruct (Nat.lt_ge_cases (String.length (ProfileFormData.userName d)) 3); [tauto|].
    destruct (Nat.lt_ge_cases (String.length (ProfileFormData.password d)) 8); [tauto|].
    exfalso. apply H. repeat split; assumption.
  - intros (_ & Hu & Hp & _). destruct H as [H | [H | H]]; [discriminate | lia | lia].
  - now left.
  - intros (He & _). discriminate He.
Qed.

Lemma profile_schema_accepts (isEmail : string -> bool) (d : ProfileFormData.t) :
  hasErrors (profileFormSchema isEmail d) = false ->
  isEmail (ProfileFormData.email d) = true
  /\ 3 <= String.length (ProfileFormData.userName d)
  /\ 8 <= String.length (ProfileFormData.password d).
Proof.
  intros H.
  destruct (isEmail (ProfileFormData.email d)) eqn:He;
    [|assert (hasErrors (profileFormSchema isEmail d) = true)
        by (apply hasErrors_true; now left); congruence].
  destruct (Nat.lt_ge_cases (String.length (ProfileFormData.userName d)) 3);
    [assert (hasErrors (profileFormSchema isEmail d) = true)
       by (apply hasErrors_true; tauto); congruence|].
  destruct (Nat.lt_ge_cases (String.length (ProfileFormData.password d)) 8);
    [assert (hasErrors (profileFormSchema isEmail d) = true)
       by (apply hasErrors_true; tauto); congruence|].
  auto.
Qed.

(** A submit of a form with a field message: no trace, the messages only. *)
Lemma handleSubmit_rejects (svc : Services) (isEmail : string -> bool) (s : State) :
  (isEmail (ProfileFormData.email (form s)) = false
   \/ String.length (ProfileFormData.userName (form s)) < 3
   \/ String.length (ProfileFormData.password (form s)) < 8) ->
  run (handleSubmit svc isEmail) s
  = (Resolved tt, mkSys (setErrors (profileFormSchema isEmail (form s)) s) []).
Proof.
  intros H. apply hasErrors_true in H. now rewrite run_handleSubmit, H.
Qed.

(** X1. A form that breaks a field rule never reaches the network. Pressing
    the submit button makes no service call and leaves the user copy and
    the mode alone. When the browser lets the submit through, the state
    changes in the field messages only, which then hold the messages; when
    the browser itself stops the submit over the e-mail text, nothing
    changes at all. *)
Theorem invalid_form_makes_no_call :
  forall (browserAcceptsEmail : string -> bool) (svc : Services)
         (isEmail : string -> bool) (s : State),
    (isEmail (ProfileFormData.email (form s)) = false
     \/ String.length (ProfileFormData.userName (form s)) < 3
     \/ String.length (ProfileFormData.password (form s)) < 8) ->
    let s' := stateAfter (submitForm browserAcceptsEmail svc isEmail) s in
    traceOf (submitForm browserAcceptsEmail svc isEmail) s = []
    /\ (if browserAcceptsEmail (ProfileFormData.email (form s))
        then s' = setErrors (profileFormSchema isEmail (form s)) s
             /\ hasErrors (errors s') = true
        else s' = s).
Proof.
  intros browserAcceptsEmail svc isEmail s H s'. subst s'.
  unfold traceOf, stateAfter, run, submitForm. cbn [st].
  destruct (browserAcceptsEmail (ProfileFormData.email (form s))).
  - pose proof (handleSubmit_rejects svc isEmail s H) as Hrun.
    unfold run in Hrun. rewrite Hrun. cbn [snd st trace errors setErrors].
    apply hasErrors_true in H. auto.
  - split; reflexivity.
Qed.

Lemma invalid_form_makes_no_call_witness :
  let short := Sample.withForm "alice@example.com" "ab" "newpass1" None Sample.editing in
  let typo := Sample.withForm "typo@" "alice" "newpass1" None Sample.editing in
  (Email.htmlEmail "alice@example.com" = true
   /\ traceOf (submitForm Email.htmlEmail Sample.allFine Email.emailSyntax) short = []
   /\ userNameError
        (errors (stateAfter (submitForm Email.htmlEmail Sample.allFine Email.emailSyntax)
                   short))
      = Some "Username must be at least 3 characters")
  /\ (Email.htmlEmail "typo@" = false
      /\ stateAfter (submitForm Email.htmlEmail Sample.allFine Email.emailSyntax) typo
         = typo).
Proof.
  cbv zeta. split; (split; [reflexivity|]).
  - destruct (invalid_form_makes_no_call Email.htmlEmail Sample.allFine Email.emailSyntax
                (Sample.withForm "alice@example.com" "ab" "newpass1" None Sample.editing))
      as (Ht & Hs).
    + right; left. cbn. lia.
    + split; [exact Ht|]. cbn in Hs. destruct Hs as (Hs & _). rewrite Hs. reflexivity.
  - destruct (invalid_form_makes_no_call Email.htmlEmail Sample.allFine Email.emailSyntax
                (Sample.withForm "typo@" "alice" "newpass1" None Sample.editing))
      as (_ & Hs).
    + left. reflexivity.
    + exact Hs.
Defined.

(** X2. The form as the component seeds it cannot be saved: right after the
    user copy is loaded, and right after a cancel, the password field is
    empty, so a submit stops at validation whatever the services would
    answer. *)
Theorem seeded_form_is_rejected :
  forall (svc : Services) (isEmail : string -> bool) (s : State) (lu : UserData.t),
    localUser s = Some lu ->
    traceOf (handleSubmit svc isEmail) (syncCurrentUser (Some lu) s) = []
    /\ traceOf (handleSubmit svc isEmail) (handleCancelEdit s) = []
    /\ passwordError (errors (stateAfter (handleSubmit svc isEmail) (handleCancelEdit s)))
       = Some "Password must be at least 8 characters".
Proof.
  intros svc isEmail s lu Hlu.
  assert (Hsync : ProfileFormData.password (form (syncCurrentUser (Some lu) s)) = "")
    by reflexivity.
  assert (Hcancel : ProfileFormData.password (form (handleCancelEdit s)) = "")
    by (unfold handleCancelEdit; rewrite Hlu; reflexivity).
  unfold traceOf, stateAfter.
  rewrite (handleSubmit_rejects svc isEmail (syncCurrentUser (Some lu) s)),
          (handleSubmit_rejects svc isEmail (handleCancelEdit s)).
  - cbn [snd st trace errors setErrors passwordError profileFormSchema].
    rewrite Hcancel. repeat split.
  - right; right. rewrite Hcancel. cbn. lia.
  - right; right. rewrite Hsync. cbn. lia.
Qed.

Lemma seeded_form_is_rejected_witness :
  localUser Sample.editing = Some Sample.alice
  /\ traceOf (handleSubmit Sample.allFine Email.emailSyntax)
             (handleCancelEdit Sample.editing) = [].
Proof.
  split; [reflexivity|].
  exact (proj1 (proj2 (seeded_form_is_rejected Sample.allFine Email.emailSyntax
                         Sample.editing Sample.alice eq_refl))).
Defined.

(** X3. [onSubmit] never rejects: every failure is caught. It writes neither
    the form values nor the field messages, and when it is done either the
    uploading flag is off or nothing was touched at all. *)
Theorem onSubmit_settles :
  forall (svc : Services) (data : ProfileFormData.t) (s : State),
    fst (run (onSubmit svc data) s) = Resolved tt
    /\ form (stateAfter (onSubmit svc data) s) = form s
    /\ errors (stateAfter (onSubmit svc data) s) = errors s
    /\ (isUploading (stateAfter (onSubmit svc data) s) = false
        \/ stateAfter (onSubmit svc data) s = s).
Proof.
  intros svc data s. submit_cases svc s; cbn; auto.
Qed.

Ltac pick_case :=
  first [ solve [repeat eexists; eauto]
        | left; solve [repeat eexists; eauto]
        | right; pick_case ].

(** X4. The network calls of one submit come in a fixed order, each made
    only when the one before resolved: the upload of the staged image if
    there is one, then the update, then the refresh of the authentication
    state. A rejected upload means no update call; a rejected update means
    no refresh. *)
Theorem onSubmit_call_order :
  forall (svc : Services) (data : ProfileFormData.t) (s : State),
    let calls := networkCalls (traceOf (onSubmit svc data) s) in
    calls = []
    \/ (exists file, selectedImage s = Some file /\ uploadImage svc file = Rejected
                     /\ calls = [CallUploadImage file])
    \/ (exists file url id p,
           selectedImage s = Some file /\ uploadImage svc file = Resolved url
           /\ updateUser svc id p = Rejected
           /\ calls = [CallUploadImage file; CallUpdateUser id p])
    \/ (exists file url id p r,
           selectedImage s = Some file /\ uploadImage svc file = Resolved url
           /\ updateUser svc id p = Resolved r
           /\ calls = [CallUploadImage file; CallUpdateUser id p; CallUpdateAuthState])
    \/ (exists id p, selectedImage s = None /\ updateUser svc id p = Rejected
                     /\ calls = [CallUpdateUser id p])
    \/ (exists id p r, selectedImage s = None /\ updateUser svc id p = Resolved r
                       /\ calls = [CallUpdateUser id p; CallUpdateAuthState]).
Proof.
  intros svc data s calls. subst calls.
  submit_cases svc s; cbn [networkCalls List.filter app]; pick_case.
Qed.

(** X6. A new password is kept in the clear in the local user copy: after a
    resolved update whose form password has 8 characters or more, the
    password field of the copy is that password. *)
Theorem new_password_is_kept_in_copy :
  forall (svc : Services) (data : ProfileFormData.t) (s : State)
         (id : string) (p : PartialUserData.t) (r : UserData.t),
    In (CallUpdateUser id p) (traceOf (onSubmit svc data) s) ->
    updateUser svc id p = Resolved r ->
    8 <= String.length (ProfileFormData.password data) ->
    exists u', localUser (stateAfter (onSubmit svc data) s) = Some u'
               /\ UserData.password u' = Some (ProfileFormData.password data).
Proof.
  intros svc data s id p r Hin Hr Hlen.
  destruct (update_call_inv svc data s id p Hin) as (lu & _ & _ & _ & Hp & Hst).
  rewrite (Hst r Hr). exists (mergedUser lu p). split; [reflexivity|].
  apply Nat.leb_le in Hlen.
  destruct Hp as [(_ & ->) | (file & url & _ & _ & ->)];
    rewrite addPassword_eq, Hlen; reflexivity.
Qed.

Lemma new_password_is_kept_in_copy_witness :
  let data := ProfileFormData.mk "new@example.com" "alice2" "newpass1" None in
  exists u', localUser (stateAfter (onSubmit Sample.allFine data) Sample.editing) = Some u'
             /\ UserData.password u' = Some "newpass1".
Proof.
  cbv zeta.
  apply (new_password_is_kept_in_copy Sample.allFine
           (ProfileFormData.mk "new@example.com" "alice2" "newpass1" None)
           Sample.editing "u1"
           (PartialUserData.mk None (Some "new@example.com") (Some "alice2")
              (Some "newpass1") None None None)
           Sample.serverAlice).
  - left. reflexivity.
  - reflexivity.
  - cbn. lia.
Defined.

(** X7. When the upload answers with an empty URL, the update that is sent
    carries the empty [imgURL], while the local user copy keeps the avatar
    it had: the copy and the payload disagree. *)
Theorem empty_upload_url_keeps_avatar :
  forall (svc : Services) (data : ProfileFormData.t) (s : State)
         (lu : UserData.t) (file : File) (id : string) (p : PartialUserData.t)
         (r : UserData.t),
    localUser s = Some lu ->
    selectedImage s = Some file ->
    uploadImage svc file = Resolved "" ->
    In (CallUpdateUser id p) (traceOf (onSubmit svc data) s) ->
    updateUser svc id p = Resolved r ->
    PartialUserData.imgURL p = Some ""
    /\ exists u', localUser (stateAfter (onSubmit svc data) s) = Some u'
                  /\ UserData.imgURL u' = UserData.imgURL lu.
Proof.
  intros svc data s lu file id p r Hlu Hsel Hup Hin Hr.
  destruct (update_call_inv svc data s id p Hin) as (lu0 & Hlu0 & _ & _ & Hp & Hst).
  assert (lu0 = lu) by congruence. subst lu0.
  destruct Hp as [(Hnone & _) | (file' & url & Hsel' & Hup' & ->)]; [congruence|].
  assert (file' = file) by congruence. subst file'.
  assert (url = "") by congruence. subst url.
  split; [reflexivity|].
  rewrite (Hst r Hr). exists (mergedUser lu
    (PartialUserData.withImgURL (addPassword data (initialUpdate data)) "")).
  split; reflexivity.
Qed.

Lemma empty_upload_url_keeps_avatar_witness :
  let svc := mkServices (fun _ => Resolved "") (fun _ _ => Resolved Sample.serverAlice)
               (Resolved tt) in
  let data := ProfileFormData.mk "new@example.com" "alice2" "" None in
  let s := setSelectedImage (Some Sample.portrait) Sample.editing in
  exists u', localUser (stateAfter (onSubmit svc data) s) = Some u'
             /\ UserData.imgURL u' = Some "/avatars/alice.png".
Proof.
  cbv zeta.
  refine (proj2 (empty_upload_url_keeps_avatar
           (mkServices (fun _ => Resolved "") (fun _ _ => Resolved Sample.serverAlice)
              (Resolved tt))
           (ProfileFormData.mk "new@example.com" "alice2" "" None)
           (setSelectedImage (Some Sample.portrait) Sample.editing)
           Sample.alice Sample.portrait "u1"
           (PartialUserData.mk None (Some "new@example.com") (Some "alice2")
              None (Some "") None None)
           Sample.serverAlice eq_refl eq_refl eq_refl _ eq_refl)).
  right; left. reflexivity.
Defined.

(** X8. Every update that goes out through the form carries a password:
    the values passed the schema, so the password has 8 characters or more
    and is part of the payload, next to a checked e-mail and a user name of
    3 characters or more. *)
Theorem form_update_always_sets_password :
  forall (svc : Services) (isEmail : string -> bool) (s : State)
         (p : PartialUserData.t),
    In p (sentUpdates (traceOf (handleSubmit svc isEmail) s)) ->
    PartialUserData.password p = Some (ProfileFormData.password (form s))
    /\ 8 <= String.length (ProfileFormData.password (form s))
    /\ PartialUserData.email p = Some (ProfileFormData.email (form s))
    /\ isEmail (ProfileFormData.email (form s)) = true
    /\ PartialUserData.userName p = Some (ProfileFormData.userName (form s))
    /\ 3 <= String.length (ProfileFormData.userName (form s)).
Proof.
  intros svc isEmail s p Hin. unfold traceOf in Hin. rewrite run_handleSubmit in Hin.
  destruct (hasErrors (profileFormSchema isEmail (form s))) eqn:Herr;
    [cbn in Hin; tauto|].
  apply profile_schema_accepts in Herr as (He & Hu & Hpw).
  apply sentUpdates_In in Hin as (id & Hin).
  destruct (update_call_inv svc (form s) (setErrors noErrors s) id p Hin)
    as (lu & _ & _ & _ & Hp & _).
  pose proof Hpw as Hleb. apply Nat.leb_le in Hleb.
  destruct Hp as [(_ & ->) | (file & url & _ & _ & ->)];
    rewrite addPassword_eq, Hleb; cbn; repeat split; assumption.
Qed.

Lemma form_update_always_sets_password_witness :
  let s := Sample.withForm "new@example.com" "alice2" "newpass1" None Sample.editing in
  let p := PartialUserData.mk None (Some "new@example.com") (Some "alice2")
             (Some "newpass1") None None None in
  sentUpdates (traceOf (handleSubmit Sample.allFine Email.emailSyntax) s) = [p]
  /\ PartialUserData.password p = Some "newpass1".
Proof.
  cbv zeta. split; [reflexivity|].
  refine (proj1 (form_update_always_sets_password Sample.allFine Email.emailSyntax
                   (Sample.withForm "new@example.com" "alice2" "newpass1" None
                      Sample.editing) _ _)).
  left. reflexivity.
Defined.

(* ===================================================================== *)
(** ** More on cancel and the image effect *)
(* ===================================================================== *)

(** X9. Cancelling twice is cancelling once. A cancel leaves the files of the
    file field, the field messages, the uploading flag and the user copy as
    they were. *)
Theorem handleCancelEdit_idempotent :
  forall s : State,
    handleCancelEdit (handleCancelEdit s) = handleCancelEdit s
    /\ ProfileFormData.profileImage (form (handleCancelEdit s))
       = ProfileFormData.profileImage (form s)
    /\ errors (handleCancelEdit s) = errors s
    /\ isUploading (handleCancelEdit s) = isUploading s
    /\ localUser (handleCancelEdit s) = localUser s.
Proof.
  intros s. unfold handleCancelEdit.
  destruct (localUser s) as [lu|] eqn:Hlu; cbn; rewrite ?Hlu; repeat split.
Qed.

Section EffectLoop.

Variable isEmail : string -> bool.

(** One commit at which the effect is due, with a file in the field: the
    first file is staged under a fresh handle, which becomes the preview,
    and the effect is due again. *)
Lemma commit_with_file (rt : Runtime) (file : File) (files : FileList) :
  handlesOrdered rt ->
  ProfileFormData.profileImage (form (component rt)) = Some (file :: files) ->
  effectDue rt ->
  selectedImage (component (commit rt)) = Some file
  /\ tempImageURL (component (commit rt)) = Some (created rt)
  /\ created (commit rt) = S (created rt)
  /\ ProfileFormData.profileImage (form (component (commit rt))) = Some (file :: files)
  /\ effectDue (commit rt).
Proof.
  intros (_ & _ & Htemp & _) Hfile Hdue. unfold effectDue in *. unfold commit.
  destruct (decide _) as [Heq | _]; [contradiction|].
  unfold imageEffect, runCleanup.
  destruct (effectCleanup rt) as [[c|]|];
    cbn [component created revoked effectCleanup effectDeps];
    rewrite Hfile; cbn; rewrite Hfile; repeat split;
    intros [= Hc]; apply Htemp in Hc; lia.
Qed.

End EffectLoop.

(** X10. A cancel cannot discard a picked image for good. With a file in the
    file field, the commit that follows the cancel stages that file again
    under a new preview handle, unless the effect last ran with the same
    files and no preview. *)
Theorem cancel_then_commit_stages_again :
  forall (isEmail : string -> bool) (es : list Event) (file : File) (files : FileList),
    let rt := runEvents isEmail initialRuntime es in
    ProfileFormData.profileImage (form (component rt)) = Some (file :: files) ->
    effectDeps rt <> Some (Some (file :: files), None) ->
    let rt' := commit (step isEmail rt CancelEdit) in
    selectedImage (component rt') = Some file
    /\ tempImageURL (component rt') = Some (created rt)
    /\ created rt' = S (created rt).
Proof.
  intros isEmail es file files rt Hfile Hdeps rt'. subst rt'.
  assert (Hinv : handlesOrdered (step isEmail rt CancelEdit))
    by (apply handlesOrdered_step, handlesOrdered_runEvents, handlesOrdered_initial).
  assert (Hfile' : ProfileFormData.profileImage
                     (form (component (step isEmail rt CancelEdit)))
                   = Some (file :: files)).
  { cbn [step withComponent component]. unfold handleCancelEdit.
    destruct (localUser (component rt)); cbn; exact Hfile. }
  destruct (commit_with_file (step isEmail rt CancelEdit) file files Hinv Hfile')
    as (H1 & H2 & H3 & _).
  - unfold effectDue. rewrite Hfile'. cbn [step withComponent component effectDeps].
    unfold handleCancelEdit. cbn. exact Hdeps.
  - cbn [step withComponent created] in H2, H3. auto.
Qed.

Lemma cancel_then_commit_stages_again_witness :
  let es := [CurrentUserChanged (Some Sample.alice); Commit; EnterEdit; Commit;
             SelectImage [Sample.portrait]; Commit; Commit] in
  let rt := runEvents Email.emailSyntax initialRuntime es in
  effectDeps rt = Some (Some [Sample.portrait], Some 0)
  /\ selectedImage (component (step Email.emailSyntax rt CancelEdit)) = None
  /\ selectedImage (component (commit (step Email.emailSyntax rt CancelEdit)))
     = Some Sample.portrait.
Proof.
  cbv zeta. split; [reflexivity|]. split; [reflexivity|].
  refine (proj1 (cancel_then_commit_stages_again Email.emailSyntax
            [CurrentUserChanged (Some Sample.alice); Commit; EnterEdit; Commit;
             SelectImage [Sample.portrait]; Commit; Commit]
            Sample.portrait [] eq_refl _)).
  vm_compute. intros H. discriminate H.
Defined.

(** X11. The image effect never settles once it ran with a file in the
    field: each later commit runs it again and creates one more preview
    handle, so [n] commits create [n] handles. *)
Theorem commits_keep_creating_handles :
  forall (isEmail : string -> bool) (es : list Event) (n : nat),
    let rt := runEvents isEmail initialRuntime es in
    filePicked rt ->
    effectDue rt ->
    created (Nat.iter n commit rt) = created rt + n
    /\ effectDue (Nat.iter n commit rt).
Proof.
  intros isEmail es n rt (file & files & Hfile) Hdue.
  assert (Hinv : handlesOrdered rt)
    by (apply handlesOrdered_runEvents, handlesOrdered_initial).
  clearbody rt.
  assert (H : handlesOrdered (Nat.iter n commit rt)
              /\ ProfileFormData.profileImage (form (component (Nat.iter n commit rt)))
                 = Some (file :: files)
              /\ created (Nat.iter n commit rt) = created rt + n
              /\ effectDue (Nat.iter n commit rt)).
  { induction n as [|n (IHinv & IHfile & IHc & IHdue)];
      [|rewrite Nat.iter_succ].
    - change (Nat.iter 0 commit rt) with rt.
      split; [exact Hinv|]. split; [exact Hfile|]. split; [lia | exact Hdue].
    - destruct (commit_with_file _ file files IHinv IHfile IHdue)
        as (_ & _ & Hc & Hf & Hd).
      split; [apply handlesOrdered_commit, IHinv|].
      split; [exact Hf|]. split; [lia | exact Hd]. }
  tauto.
Qed.

Lemma commits_keep_creating_handles_witness :
  let es := [CurrentUserChanged (Some Sample.alice); Commit; EnterEdit; Commit;
             SelectImage [Sample.portrait]] in
  let rt := runEvents Email.emailSyntax initialRuntime es in
  created rt = 0 /\ created (Nat.iter 25 commit rt) = 25.
Proof.
  cbv zeta. split; [reflexivity|].
  refine (proj1 (commits_keep_creating_handles Email.emailSyntax
            [CurrentUserChanged (Some Sample.alice); Commit; EnterEdit; Commit;
             SelectImage [Sample.portrait]] 25 _ _)).
  - exists Sample.portrait, []. reflexivity.
  - vm_compute. intros H. discriminate H.
Defined.

(** The run in which one handle is revoked twice: the third commit is of a
    render that still shows handle 0, so its cleanup captures handle 0 once
    more. Handles 0 to 3 are created; handle 0 is revoked at the third and
    at the fourth commit. *)
Example stale_commit_revokes_twice :
  let rt := runEvents Email.emailSyntax initialRuntime
              [SelectImage [Sample.portrait]; Commit; Commit;
               StaleCommit (Some 0); Commit] in
  created rt = 4 /\ revoked rt = [0; 0] /\ effectCleanup rt = Some (Some 2).
Proof. cbv zeta. repeat split. Qed.


(* ===================================================================== *)
(** ** More on the item lists *)
(* ===================================================================== *)

Lemma lowerChar_isSpace (c : ascii) : JS.isSpace (JS.lowerChar c) = JS.isSpace c.
Proof. destruct c as [[] [] [] [] [] [] [] []]; reflexivity. Qed.

Lemma lowerChar_idempotent (c : ascii) : JS.lowerChar (JS.lowerChar c) = JS.lowerChar c.
Proof. destruct c as [[] [] [] [] [] [] [] []]; reflexivity. Qed.

Lemma toLowerCase_idempotent (s : string) :
  JS.toLowerCase (JS.toLowerCase s) = JS.toLowerCase s.
Proof.
  induction s as [|c r IH]; simpl; [reflexivity|].
  now rewrite lowerChar_idempotent, IH.
Qed.

Lemma toLowerCase_app (a b : string) :
  JS.toLowerCase (a ++ b) = (JS.toLowerCase a ++ JS.toLowerCase b)%string.
Proof. induction a as [|c r IH]; simpl; [reflexivity | now rewrite IH]. Qed.

Lemma allSpace_toLowerCase (w : string) : allSpace (JS.toLowerCase w) = allSpace w.
Proof.
  induction w as [|c r IH]; simpl; [reflexivity|].
  now rewrite lowerChar_isSpace, IH.
Qed.

Lemma trimStart_allSpace (w : string) : allSpace w = true -> JS.trimStart w = "".
Proof.
  induction w as [|c r IH]; simpl; [reflexivity|].
  intros H. apply andb_true_iff in H as [Hc Hr]. rewrite Hc. auto.
Qed.

Lemma trimStart_space_app (w s : string) :
  allSpace w = true -> JS.trimStart (w ++ s) = JS.trimStart s.
Proof.
  induction w as [|c r IH]; simpl; [reflexivity|].
  intros H. apply andb_true_iff in H as [Hc Hr]. rewrite Hc. auto.
Qed.

Lemma trimStart_app_space (s w : string) :
  allSpace w = true ->
  JS.trimStart (s ++ w)
  = if allSpace s then "" else (JS.trimStart s ++ w)%string.
Proof.
  intros Hw. induction s as [|c r IH]; simpl.
  - apply trimStart_allSpace, Hw.
  - destruct (JS.isSpace c); simpl; [exact IH | reflexivity].
Qed.

Lemma trimEnd_allSpace (w : string) : allSpace w = true -> JS.trimEnd w = "".
Proof.
  induction w as [|c r IH]; simpl; [reflexivity|].
  intros H. apply andb_true_iff in H as [Hc Hr]. now rewrite (IH Hr), Hc.
Qed.

Lemma trimEnd_app_space (s w : string) :
  allSpace w = true -> JS.trimEnd (s ++ w) = JS.trimEnd s.
Proof.
  intros Hw. induction s as [|c r IH]; simpl.
  - apply trimEnd_allSpace, Hw.
  - now rewrite IH.
Qed.

(** White space around the text does not survive [trim]. *)
Lemma trim_padding (pre t post : string) :
  allSpace pre = true -> allSpace post = true ->
  JS.trim (pre ++ t ++ post) = JS.trim t.
Proof.
  intros Hpre Hpost. unfold JS.trim.
  rewrite (trimStart_space_app pre _ Hpre), (trimStart_app_space t post Hpost).
  destruct (allSpace t) eqn:Ht.
  - now rewrite (trimStart_allSpace t Ht).
  - apply trimEnd_app_space, Hpost.
Qed.

Lemma normalizedType_padding (pre t post : string) :
  allSpace pre = true -> allSpace post = true ->
  normalizedType (Some (pre ++ t ++ post)%string) = normalizedType (Some t).
Proof.
  intros Hpre Hpost. unfold normalizedType. cbn [JS.orEmpty].
  rewrite !toLowerCase_app. apply trim_padding; now rewrite allSpace_toLowerCase.
Qed.

(** X13. The type of an item is read without regard to the white space
    around it and to the case of its letters: padding the type with white
    space on either side, or lowering its letters, changes nothing in what
    the filter answers. *)
Theorem item_type_padding_and_case :
  forall (number TimeValue : Type) (cu : option UserData.t) (T : ItemKind)
         (i : option string) (o u : option JsId) (n d c : string)
         (loc : option (Location number)) (dt : option (DateInput TimeValue))
         (img : option string) (pre t post : string),
    allSpace pre = true ->
    allSpace post = true ->
    isUserItem cu T (mkItem i o u (Some (pre ++ t ++ post)%string) n d c loc dt img)
    = isUserItem cu T (mkItem i o u (Some t) n d c loc dt img)
    /\ isUserItem cu T (mkItem i o u (Some (JS.toLowerCase t)) n d c loc dt img)
       = isUserItem cu T (mkItem i o u (Some t) n d c loc dt img).
Proof.
  intros number TimeValue cu T i o u n d c loc dt img pre t post Hpre Hpost.
  unfold isUserItem. cbn [owner userId itemType].
  pose proof (normalizedType_padding pre t post Hpre Hpost) as Hpad.
  unfold normalizedType in Hpad. rewrite Hpad.
  cbn [JS.orEmpty]. now rewrite toLowerCase_idempotent.
Qed.

Lemma item_type_padding_and_case_witness :
  allSpace "  " = true
  /\ isUserItem (Some Sample.alice) found (Sample.item (Some "u1") None (Some "  FoUnD  "))
     = true.
Proof.
  split; [reflexivity|].
  refine (eq_trans (proj1 (item_type_padding_and_case nat nat (Some Sample.alice) found
             None (Some (IdString "u1")) None "keys" "a bunch of keys" "misc" None
             None None "  " "FoUnD" "  " eq_refl eq_refl)) _).
  reflexivity.
Defined.

Lemma isUserItem_not_both {number TimeValue : Type} (cu : option UserData.t) (I : Item number TimeValue) :
  isUserItem cu lost I = true -> isUserItem cu found I = false.
Proof.
  unfold isUserItem.
  destruct (negb _ || negb _); [discriminate|].
  destruct (negb _); [discriminate|].
  cbn [typeParamString]. intros H. apply String.eqb_eq in H. now rewrite H.
Qed.

Lemma filtered_lengths {number TimeValue : Type} (cu : option UserData.t)
    (items : list (Item number TimeValue)) :
  length (filtered cu lost items) + length (filtered cu found items) <= length items.
Proof.
  unfold filtered. induction items as [|x items IH]; cbn; [lia|].
  destruct (isUserItem cu lost x) eqn:Hl.
  - rewrite (isUserItem_not_both cu x Hl). cbn. lia.
  - destruct (isUserItem cu found x); cbn; lia.
Qed.

(** X14. No item is shown in both lists: the lost list and the found list of
    the same items share no element, and together they are no longer than
    the input. An item without a type is in neither. *)
Theorem lost_and_found_are_disjoint :
  forall (number TimeValue : Type) (cu : option UserData.t) (items : list (Item number TimeValue)),
    (forall I, ~ (In I (filtered cu lost items) /\ In I (filtered cu found items)))
    /\ length (filtered cu lost items) + length (filtered cu found items)
       <= length items
    /\ (forall I T, itemType I = None -> ~ In I (filtered cu T items)).
Proof.
  intros number TimeValue cu items. split; [|split].
  - intros I (Hl & Hf). unfold filtered in *.
    apply filter_In in Hl as (_ & Hl). apply filter_In in Hf as (_ & Hf).
    rewrite (isUserItem_not_both cu I Hl) in Hf. discriminate Hf.
  - apply filtered_lengths.
  - intros I T Hty Hin. unfold filtered in Hin. apply filter_In in Hin as (_ & H).
    unfold isUserItem in H. rewrite Hty in H.
    destruct (negb _ || negb _); [discriminate|].
    destruct (negb _); [discriminate|]. destruct T; discriminate H.
Qed.

(** X15. Without a current user, or with a user whose id is missing or
    empty, both lists are empty whatever the items are, and the list area
    shows the "no items" text. *)
Theorem no_user_no_items :
  forall (number TimeValue : Type) (cu : option UserData.t) (items : list (Item number TimeValue))
         (T : ItemKind),
    (cu = None \/ exists u, cu = Some u /\ JS.truthy (UserData._id u) = false) ->
    filtered cu T items = []
    /\ renderUserItems false None cu items T = NoItemsFound T.
Proof.
  intros number TimeValue cu items T H.
  assert (Hf : forall I : Item number TimeValue, isUserItem cu T I = false).
  { intros I. unfold isUserItem.
    destruct H as [-> | (u & -> & Hu)]; [|rewrite Hu]; cbn [JS.truthy negb];
      now rewrite orb_true_r. }
  assert (Hnil : filtered cu T items = []).
  { unfold filtered. induction items as [|x items IH]; cbn; [reflexivity|].
    now rewrite Hf. }
  split; [exact Hnil|]. unfold renderUserItems. cbn. now rewrite Hnil.
Qed.

Lemma no_user_no_items_witness :
  JS.truthy (UserData._id Sample.blankId) = false
  /\ filtered (Some Sample.blankId) lost
       [Sample.item (Some "") None (Some "lost"); Sample.item (Some "u1") None (Some "lost")]
     = [].
Proof.
  split; [reflexivity|].
  refine (proj1 (no_user_no_items nat nat (Some Sample.blankId) _ lost _)).
  right. exists Sample.blankId. split; reflexivity.
Defined.

(** X16. The card grid is never empty: when cards are drawn, loading is over,
    no error is pending, there is at least one card, and the cards carry
    the names of the filtered items in their order. *)
Theorem cards_follow_filtered :
  forall (number TimeValue : Type) (itemsLoading : bool) (itemsError : option string)
         (cu : option UserData.t) (items : list (Item number TimeValue)) (T : ItemKind)
         (cards : list Card),
    renderUserItems itemsLoading itemsError cu items T = Cards cards ->
    itemsLoading = false
    /\ JS.truthy itemsError = false
    /\ cards <> []
    /\ map cardTitle cards = map name (filtered cu T items)
    /\ length cards <= length items.
Proof.
  intros number TimeValue itemsLoading itemsError cu items T cards H.
  unfold renderUserItems in H.
  destruct itemsLoading; [discriminate H|].
  destruct (JS.truthy itemsError); [discriminate H|].
  destruct (filtered cu T items) as [|x l] eqn:Hf; [discriminate H|].
  injection H as <-. repeat split.
  - discriminate.
  - cbn. f_equal. rewrite map_map. reflexivity.
  - assert (Hlen : length (map renderCard (x :: l)) <= length items)
      by (rewrite length_map, <- Hf; unfold filtered; apply List.filter_length_le).
    exact Hlen.
Qed.

Lemma cards_follow_filtered_witness :
  let items := [Sample.item (Some "u2") None (Some "lost");
                Sample.item (Some "u1") None (Some "Lost ")] in
  renderUserItems false None (Some Sample.alice) items lost
    = Cards [mkCard "keys" "a bunch of keys" "misc" (Text "")]
  /\ map cardTitle [mkCard "keys" "a bunch of keys" "misc" (Text "")]
     = map name (filtered (Some Sample.alice) lost items).
Proof.
  cbv zeta. split; [reflexivity|].
  exact (proj1 (proj2 (proj2 (proj2
    (cards_follow_filtered nat nat false None (Some Sample.alice)
       [Sample.item (Some "u2") None (Some "lost");
        Sample.item (Some "u1") None (Some "Lost ")] lost
       [mkCard "keys" "a bunch of keys" "misc" (Text "")] eq_refl))))).
Defined.

(* ===================================================================== *)
(** ** formatDate *)
(* ===================================================================== *)

Section DateProperties.

Variable TimeValue : Type.
Variable parseDate : string -> option TimeValue.
Variable toLocaleDateString : TimeValue -> string.

(** X18. [formatDate] answers "N/A" for an absent date and for the empty
    string only: as long as no locale text reads "N/A", every other input,
    a string that is no date included, gets another text, and a non-empty
    string that does not parse reads "Invalid Date". *)
Theorem formatDate_not_available :
  (forall v, toLocaleDateString v <> "N/A") ->
  forall date : option (DateInput TimeValue),
    (formatDate TimeValue parseDate toLocaleDateString date = "N/A"
     <-> date = None \/ date = Some (DateString ""))
    /\ (forall s, date = Some (DateString s) -> s <> "" -> parseDate s = None ->
        formatDate TimeValue parseDate toLocaleDateString date = "Invalid Date").
Proof.
  intros Hlocale date. split.
  - split.
    + destruct date as [[[v|]|[|c r]]|]; cbn; auto; intros H.
      * now apply Hlocale in H.
      * discriminate H.
      * destruct (parseDate (String c r)) as [v|]; cbn in H;
          [now apply Hlocale in H | discriminate H].
    + intros [-> | ->]; reflexivity.
  - intros s -> Hs Hparse. destruct s as [|c r]; [congruence|].
    cbn. rewrite Hparse. reflexivity.
Qed.

End DateProperties.

Lemma formatDate_not_available_witness :
  let parse := fun s : string => if String.eqb s "2024-05-01" then Some 121 else None in
  let locale := fun _ : nat => "5/1/2024" in
  formatDate nat parse locale (Some (DateString "yesterday")) = "Invalid Date"
  /\ formatDate nat parse locale (Some (DateString "2024-05-01")) = "5/1/2024"
  /\ (formatDate nat parse locale (Some (DateString "yesterday")) = "N/A"
      <-> Some (@DateString nat "yesterday") = None
          \/ Some (@DateString nat "yesterday") = Some (DateString "")).
Proof.
  cbv zeta. split; [reflexivity|]. split; [reflexivity|].
  refine (proj1 (formatDate_not_available nat
            (fun s : string => if String.eqb s "2024-05-01" then Some 121 else None)
            (fun _ : nat => "5/1/2024") _ (Some (DateString "yesterday")))).
  intros v H. discriminate H.
Defined.

(* ===================================================================== *)
(** ** Delete account, logout, delete item *)
(* ===================================================================== *)

(** Take apart membership in a literal list and the equations it gives. *)
Ltac in_cases :=
  repeat match goal with
    | H : In _ (_ :: _) |- _ => destruct H as [H | H]
    | H : In _ [] |- _ => destruct H
    | H : exists _, _ |- _ => destruct H
    | H : _ /\ _ |- _ => destruct H
    | H : _ \/ _ |- _ => destruct H
    | H : _ = _ |- _ => first [discriminate H | injection H as ?]
    end; subst.

(** X19. The account is deleted only for a user copy that has an id and
    only after the question was answered with yes; the page leaves for the
    login entry only when the delete call resolved. With no id nothing
    happens at all, not even the question. *)
Theorem delete_account_needs_confirmation :
  forall (env : Browser) (s : State),
    let acts := handleDeleteAccount env s in
    (forall id, In (CallDeleteUser id) acts <->
       (exists lu, localUser s = Some lu /\ UserData._id lu = Some id /\ id <> "")
       /\ confirm env deleteAccountPrompt = true)
    /\ (forall href, In (SetLocationHref href) acts <->
          href = "/login"
          /\ exists id, In (CallDeleteUser id) acts /\ deleteUser env id = Resolved tt)
    /\ (acts = [] <->
        localUser s = None
        \/ exists lu, localUser s = Some lu /\ JS.truthy (UserData._id lu) = false).
Proof.
  intros env s acts. subst acts. unfold handleDeleteAccount.
  destruct (localUser s) as [lu|] eqn:Hlu;
    [destruct (UserData._id lu) as [[|c r]|] eqn:Hid; cbn [JS.truthyStr negb];
     [ | destruct (confirm env deleteAccountPrompt) eqn:Hc;
         [destruct (deleteUser env (String c r)) as [[]|] eqn:Hd|] | ] | ].
  all: split; [intros id | split; [intros href|]]; split; intros H.
  all: in_cases; cbn in *; try congruence; try tauto.
  all: try (rewrite Hid in *; cbn in *; congruence).
  all: try (split; [|reflexivity]; exists lu; repeat split; auto; discriminate).
  all: try (left; reflexivity).
  all: try (right; exists lu; rewrite Hid; split; reflexivity).
  all: try (split; [reflexivity|]; eexists; split; [right; left; reflexivity | assumption]).
  all: right; left; congruence.
Qed.

(** A declined question: the account stays. *)
Example delete_account_declined :
  let env := mkBrowser (fun _ => false) (fun _ => Resolved tt) (Resolved tt)
               (fun _ => Resolved tt) in
  handleDeleteAccount env Sample.editing = [Confirm deleteAccountPrompt].
Proof. reflexivity. Qed.

(** X20. An item is deleted only after the question was answered with yes,
    and the page reloads only when the delete call resolved; a declined
    question leaves nothing but the question itself. *)
Theorem delete_item_needs_confirmation :
  forall (env : Browser) (itemId : string),
    let acts := handleDeleteItem env itemId in
    (forall i, In (CallDeleteItem i) acts <->
       i = itemId /\ confirm env deleteItemPrompt = true)
    /\ (In LocationReload acts <->
        confirm env deleteItemPrompt = true /\ deleteItem env itemId = Resolved tt)
    /\ (confirm env deleteItemPrompt = false <-> acts = [Confirm deleteItemPrompt]).
Proof.
  intros env itemId acts. subst acts. unfold handleDeleteItem.
  destruct (confirm env deleteItemPrompt) eqn:Hc; cbn [negb];
    [destruct (deleteItem env itemId) as [[]|] eqn:Hd|].
  all: split; [intros i | split]; split; intros H.
  all: in_cases; cbn in *; try congruence; try tauto; auto.
Qed.

(** X21. The page leaves for the login entry only after a call resolved: on
    logout when the logout call resolved, on account deletion when the
    delete call resolved. A rejected call is logged and the page stays. *)
Theorem login_redirect_only_after_success :
  forall (env : Browser) (s : State),
    (In (SetLocationHref "/login") (handleLogout env) <-> logout env = Resolved tt)
    /\ (logout env = Rejected ->
        handleLogout env = [CallLogout; LogError "Failed to logout:"])
    /\ (In (SetLocationHref "/login") (handleDeleteAccount env s) ->
        exists id, deleteUser env id = Resolved tt
                   /\ In (CallDeleteUser id) (handleDeleteAccount env s))
    /\ hd_error (handleLogout env) = Some CallLogout.
Proof.
  intros env s. unfold handleLogout.
  destruct (logout env) as [[]|] eqn:Hl; repeat split; intros; in_cases;
    cbn in *; try congruence; try tauto.
  all: unfold handleDeleteAccount in *.
  all: destruct (localUser s) as [lu|]; [|now in_cases].
  all: destruct (UserData._id lu) as [id|]; [|now in_cases].
  all: destruct (JS.truthyStr id); cbn [negb] in *; [|now in_cases].
  all: destruct (confirm env deleteAccountPrompt);
    [destruct (deleteUser env id) as [[]|] eqn:Hd|]; in_cases; try congruence.
  all: exists id; split; [assumption | right; left; reflexivity].
Qed.

(* ===================================================================== *)
(** ** What is on screen after a submit *)
(* ===================================================================== *)

(** A submit through the form whose update call resolved: the state the
    handler leaves, and the e-mail and user name of the payload. *)
Lemma submit_resolved_state (svc : Services) (isEmail : string -> bool) (s : State)
    (id : string) (p : PartialUserData.t) (r : UserData.t) :
  In (CallUpdateUser id p) (traceOf (handleSubmit svc isEmail) s) ->
  updateUser svc id p = Resolved r ->
  exists lu,
    localUser s = Some lu
    /\ stateAfter (handleSubmit svc isEmail) s
       = setIsUploading false
           (setIsEditing false
              (setTempImageUrl None
                 (setSelectedImage None
                    (setLocalUser (Some (mergedUser lu p))
                       (setIsUploading true (setErrors noErrors s))))))
    /\ PartialUserData.email p = Some (ProfileFormData.email (form s))
    /\ PartialUserData.userName p = Some (ProfileFormData.userName (form s)).
Proof.
  intros Hin Hr. unfold traceOf, stateAfter in *. rewrite run_handleSubmit in *.
  destruct (hasErrors (profileFormSchema isEmail (form s)));
    [cbn in Hin; tauto|].
  destruct (update_call_inv svc (form s) (setErrors noErrors s) id p Hin)
    as (lu & Hlu & _ & _ & Hp & Hst).
  exists lu. split; [exact Hlu|]. split; [exact (Hst r Hr)|].
  pose proof (addPassword_fields (form s)) as F. cbv zeta in F.
  destruct F as (Fe & Fu & _).
  destruct Hp as [(_ & ->) | (? & ? & _ & _ & ->)]; cbn; auto.
Qed.

(** The commit that follows a resolved submit, with a file still in the file
    field: the component after it. *)
Lemma submit_then_commit (svc : Services) (isEmail : string -> bool) (rt : Runtime)
    (file : File) (files : FileList) (id : string) (p : PartialUserData.t)
    (r : UserData.t) :
  ProfileFormData.profileImage (form (component rt)) = Some (file :: files) ->
  effectDeps rt <> Some (Some (file :: files), None) ->
  In (CallUpdateUser id p) (traceOf (handleSubmit svc isEmail) (component rt)) ->
  updateUser svc id p = Resolved r ->
  exists lu,
    localUser (component rt) = Some lu
    /\ PartialUserData.email p = Some (ProfileFormData.email (form (component rt)))
    /\ PartialUserData.userName p
       = Some (ProfileFormData.userName (form (component rt)))
    /\ selectedImage (component (step isEmail rt (Submit svc))) = None
    /\ tempImageURL (component (step isEmail rt (Submit svc))) = None
    /\ component (commit (step isEmail rt (Submit svc)))
       = setTempImageUrl (Some (created rt))
           (setSelectedImage (Some file)
              (setIsUploading false
                 (setIsEditing false
                    (setLocalUser (Some (mergedUser lu p))
                       (setErrors noErrors (component rt)))))).
Proof.
  intros Hfile Hdeps Hin Hr.
  destruct (submit_resolved_state svc isEmail (component rt) id p r Hin Hr)
    as (lu & Hlu & Hst & He & Hu).
  exists lu. split; [exact Hlu|]. split; [exact He|]. split; [exact Hu|].
  cbn [step withComponent component]. rewrite Hst.
  split; [reflexivity|]. split; [reflexivity|].
  match goal with |- component (commit ?x) = _ => set (rt1 := x) end.
  assert (Hfile1 : ProfileFormData.profileImage (form (component rt1))
                   = Some (file :: files)) by exact Hfile.
  destruct (commit_stages_file rt1 file files Hfile1) as (Hc & _).
  - unfold effectDue. rewrite Hfile1. exact Hdeps.
  - rewrite Hc. reflexivity.
Qed.

(** X5. A resolved save does not end the staging of the picked image. The
    handler leaves edit mode, turns the uploading flag off and writes null
    to the staged image and to its preview; but with the file still in the
    file field, the commit that follows stages that file again under a
    newly created preview handle, in view mode. *)
Theorem resolved_submit_stages_again :
  forall (svc : Services) (isEmail : string -> bool) (rt : Runtime)
         (file : File) (files : FileList) (id : string) (p : PartialUserData.t)
         (r : UserData.t),
    ProfileFormData.profileImage (form (component rt)) = Some (file :: files) ->
    effectDeps rt <> Some (Some (file :: files), None) ->
    In (CallUpdateUser id p) (traceOf (handleSubmit svc isEmail) (component rt)) ->
    updateUser svc id p = Resolved r ->
    let submitted := step isEmail rt (Submit svc) in
    (selectedImage (component submitted) = None
     /\ tempImageURL (component submitted) = None)
    /\ isEditing (component (commit submitted)) = false
    /\ isUploading (component (commit submitted)) = false
    /\ selectedImage (component (commit submitted)) = Some file
    /\ tempImageURL (component (commit submitted)) = Some (created rt).
Proof.
  intros svc isEmail rt file files id p r Hfile Hdeps Hin Hr submitted.
  subst submitted.
  destruct (submit_then_commit svc isEmail rt file files id p r Hfile Hdeps Hin Hr)
    as (lu & _ & _ & _ & Hsel & Htemp & Hc).
  rewrite Hc. repeat split; assumption.
Qed.

Lemma resolved_submit_stages_again_witness :
  let rt := runEvents Email.emailSyntax initialRuntime
              [CurrentUserChanged (Some Sample.alice); Commit; EnterEdit; Commit;
               SelectImage [Sample.portrait]; Commit; Commit;
               EditPassword "newpass1"] in
  effectDeps rt = Some (Some [Sample.portrait], Some 0)
  /\ created rt = 2
  /\ selectedImage (component (commit (step Email.emailSyntax rt (Submit Sample.allFine))))
     = Some Sample.portrait
  /\ tempImageURL (component (commit (step Email.emailSyntax rt (Submit Sample.allFine))))
     = Some 2.
Proof.
  cbv zeta. split; [vm_compute; reflexivity|]. split; [vm_compute; reflexivity|].
  destruct (resolved_submit_stages_again Sample.allFine Email.emailSyntax
              (runEvents Email.emailSyntax initialRuntime
                 [CurrentUserChanged (Some Sample.alice); Commit; EnterEdit; Commit;
                  SelectImage [Sample.portrait]; Commit; Commit;
                  EditPassword "newpass1"])
              Sample.portrait [] "u1"
              (PartialUserData.mk None (Some "alice@example.com") (Some "alice")
                 (Some "newpass1") (Some "/uploads/new.jpg") None None)
              Sample.serverAlice)
    as (_ & _ & _ & Hsel & Htemp).
  - vm_compute. reflexivity.
  - vm_compute. intros H. discriminate H.
  - vm_compute. right; left. reflexivity.
  - reflexivity.
  - split; assumption.
Defined.

(** X22. After a save with a new picture, the page does not show the
    uploaded picture. With the file still in the file field, the page drawn
    at the commit that follows a resolved submit is in view mode, with the
    e-mail and user name of the form, and its avatar is the newly created
    preview handle, although the user copy holds the uploaded URL. *)
Theorem page_after_saved_upload :
  forall (svc : Services) (isEmail : string -> bool) (rt : Runtime)
         (file : File) (files : FileList) (id : string) (p : PartialUserData.t)
         (r : UserData.t) (url : string) (loading isAuthenticated : bool),
    ProfileFormData.profileImage (form (component rt)) = Some (file :: files) ->
    effectDeps rt <> Some (Some (file :: files), None) ->
    In (CallUpdateUser id p) (traceOf (handleSubmit svc isEmail) (component rt)) ->
    updateUser svc id p = Resolved r ->
    PartialUserData.imgURL p = Some url ->
    url <> "" ->
    loading = true \/ isAuthenticated = true ->
    let s' := component (commit (step isEmail rt (Submit svc))) in
    renderProfile loading isAuthenticated s'
    = ProfilePage (PreviewURL (created rt)) false false
        (ViewPanel (if JS.truthyStr (ProfileFormData.userName (form (component rt)))
                    then ProfileFormData.userName (form (component rt))
                    else "Not set")
                   (ProfileFormData.email (form (component rt))))
    /\ exists u', localUser s' = Some u' /\ UserData.imgURL u' = Some url.
Proof.
  intros svc isEmail rt file files id p r url loading isAuthenticated
         Hfile Hdeps Hin Hr Hurl Hne Hauth s'. subst s'.
  destruct (submit_then_commit svc isEmail rt file files id p r Hfile Hdeps Hin Hr)
    as (lu & _ & He & Hu & _ & _ & Hc).
  rewrite Hc. unfold renderProfile.
  assert (negb loading && negb isAuthenticated = false) as ->
    by (destruct Hauth as [-> | ->]; [reflexivity | apply andb_false_r]).
  cbn [localUser setIsUploading setIsEditing setTempImageUrl setSelectedImage
       setLocalUser setErrors tempImageURL isEditing isUploading negb avatarSrc].
  unfold mergedUser, withImgURL, spread. cbn. rewrite Hurl, He, Hu. cbn.
  split; [reflexivity|].
  eexists. split; [reflexivity|]. cbn.
  destruct url as [|c u]; [congruence | reflexivity].
Qed.

Lemma page_after_saved_upload_witness :
  let rt := runEvents Email.emailSyntax initialRuntime
              [CurrentUserChanged (Some Sample.alice); Commit; EnterEdit; Commit;
               SelectImage [Sample.portrait]; Commit; Commit;
               EditPassword "newpass1"] in
  renderProfile false true
    (component (commit (step Email.emailSyntax rt (Submit Sample.allFine))))
  = ProfilePage (PreviewURL 2) false false (ViewPanel "alice" "alice@example.com").
Proof.
  cbv zeta.
  destruct (page_after_saved_upload Sample.allFine Email.emailSyntax
              (runEvents Email.emailSyntax initialRuntime
                 [CurrentUserChanged (Some Sample.alice); Commit; EnterEdit; Commit;
                  SelectImage [Sample.portrait]; Commit; Commit;
                  EditPassword "newpass1"])
              Sample.portrait [] "u1"
              (PartialUserData.mk None (Some "alice@example.com") (Some "alice")
                 (Some "newpass1") (Some "/uploads/new.jpg") None None)
              Sample.serverAlice "/uploads/new.jpg" false true)
    as (Hpage & _).
  - vm_compute. reflexivity.
  - vm_compute. intros H. discriminate H.
  - vm_compute. right; left. reflexivity.
  - reflexivity.
  - reflexivity.
  - discriminate.
  - right. reflexivity.
  - rewrite Hpage. vm_compute. reflexivity.
Defined.


